(** * The ARM64 code simulator bridge of ART (simulator/code_simulator_arm64.cc)

    A shallow embedding of the call-bridging layer that sits on top of the
    VIXL AArch64 instruction simulator:

    - [CustomSimulator], the simulator subclass whose
      [VisitUnconditionalBranchToRegister] diverts a few runtime entry points
      to host-native functions;
    - [InitRegistersForInvokeStub] and [GetResultFromShorty], which marshal a
      method call into and out of the simulated register file;
    - [Invoke], the facade entry point;
    - [CanSimulate], the eligibility policy.

    Machine integers are [Z] with the wrap-around written out.  Host memory is
    a flat map from byte addresses to bytes: the simulated stack, the argument
    buffer and the [JValue] result slot all live in it, exactly as the
    simulator runs against the memory of the host process.  Addresses
    themselves are not wrapped.

    The file is about 64-bit hosts, where [kCanSimulate] is true: the
    [DCHECK(kCanSimulate)] lines and the check on [sizeof(args)] hold by
    construction and are left out, as is the logging. *)

From Stdlib Require Import ZArith Lia List Bool String Ascii.
Import ListNotations.
Open Scope Z_scope.

(** ** Fatal outcomes *)

(** How a call may end the process instead of returning. *)
Inductive Abort : Type :=
| DCheckFailed      (* a DCHECK whose condition is false, debug builds only *)
| Unreachable       (* control reached UNREACHABLE() *)
| NullDereference   (* a null pointer was dereferenced *)
| SimulationAborted (* the instruction simulator itself gave up *).

Inductive Outcome (A : Type) : Type :=
| Ok (a : A)
| Fatal (why : Abort).
Arguments Ok {A} a.
Arguments Fatal {A} why.

Definition bind {A B : Type} (o : Outcome A) (k : A -> Outcome B) : Outcome B :=
  match o with
  | Ok a => k a
  | Fatal why => Fatal why
  end.

Notation "x <- e ;; k" := (bind e (fun x => k))
  (at level 61, e at next level, right associativity).
Notation "e ;;; k" := (bind e (fun _ => k))
  (at level 61, right associativity).

(** ** Machine words and host memory *)

Definition wrap64 (z : Z) : Z := z mod 2 ^ 64.
Definition wrap32 (z : Z) : Z := z mod 2 ^ 32.

(** One byte per host address. *)
Definition Memory : Type := Z -> Z.

Definition store8 (m : Memory) (a v : Z) : Memory :=
  fun x => if x =? a then v mod 256 else m x.

(** Little-endian store and load of [n] bytes (the host is x86-64). *)
Fixpoint store_le (n : nat) (m : Memory) (a v : Z) : Memory :=
  match n with
  | O => m
  | S k => store_le k (store8 m a v) (a + 1) (v / 256)
  end.

Fixpoint load_le (n : nat) (m : Memory) (a : Z) : Z :=
  match n with
  | O => 0
  | S k => m a mod 256 + 256 * load_le k m (a + 1)
  end.

Definition load32 (m : Memory) (a : Z) : Z := load_le 4 m a.
Definition load64 (m : Memory) (a : Z) : Z := load_le 8 m a.
Definition store32 (m : Memory) (a v : Z) : Memory := store_le 4 m a v.
Definition store64 (m : Memory) (a v : Z) : Memory := store_le 8 m a v.

(** [std::memcpy(dst, src, n)]: every byte is read from the memory as it was
    before the copy. *)
Definition memcpy (m : Memory) (dst src n : Z) : Memory :=
  fun x => if (dst <=? x) && (x <? dst + n) then m (src + (x - dst)) else m x.

(** ** The simulated machine *)

(** Special registers defined in asm_support_arm64.s. *)
Definition kSelf : Z := 19.
Definition kMR : Z := 20.
Definition kFp : Z := 29.
Definition kSp : Z := 31.

(** AArch64 constants the source takes from VIXL: the link register is x30
    and an X register is eight bytes wide; instructions are four bytes. *)
Definition kLinkRegCode : Z := 30.
Definition kXRegSizeInBytes : Z := 8.
Definition kInstructionSize : Z := 4.

(** Register 31 names either the zero register or the stack pointer. *)
Inductive Reg31Mode : Type := Reg31IsStackPointer | Reg31IsZeroRegister.

(** The architectural state kept by the VIXL simulator: general registers
    (slot 31 holds the stack pointer), vector registers, program counter and
    the flag registers. *)
Record SimState : Type := mkSimState {
  registers_ : Z -> Z;
  vregisters_ : Z -> Z;
  pc_ : Z;
  nzcv_ : Z;
  fpcr_ : Z
}.

(** Function pointers of the runtime services, by host address. *)
Record QuickEntryPoints : Type := mkQuickEntryPoints {
  pTestSuspend : Z;
  pAllocObjectInitialized : Z;
  pAllocArrayResolved8 : Z;
  pAllocArrayResolved16 : Z;
  pAllocArrayResolved32 : Z;
  pAllocArrayResolved64 : Z
}.

(** A host-native call made on behalf of simulated code: the function
    address and the arguments handed to it. *)
Record RuntimeCall : Type := mkRuntimeCall {
  call_target : Z;
  call_args : list Z
}.

(** [CustomSimulator]: the simulator state, the entry-point table installed
    by [SetEntryPoints], the host memory the simulation runs against, and the
    host-native calls made so far (most recent first). *)
Record CustomSimulator : Type := mkCustomSimulator {
  state_ : SimState;
  qpoints_ : option QuickEntryPoints;
  memory_ : Memory;
  calls_ : list RuntimeCall
}.

Definition with_state (s : CustomSimulator) (st : SimState) : CustomSimulator :=
  mkCustomSimulator st (qpoints_ s) (memory_ s) (calls_ s).

Definition with_memory (s : CustomSimulator) (m : Memory) : CustomSimulator :=
  mkCustomSimulator (state_ s) (qpoints_ s) m (calls_ s).

(** Modelled from the spec: the register accessors of the Instruction
    Simulator (VIXL's Simulator class, an external collaborator).  Reads and
    writes are by register code; in zero-register mode code 31 reads as zero
    and ignores writes; a 32-bit write clears the upper half of the
    register. *)
Definition ReadRegister (s : CustomSimulator) (code : Z) (mode : Reg31Mode) : Z :=
  match mode with
  | Reg31IsZeroRegister => if code =? 31 then 0 else wrap64 (registers_ (state_ s) code)
  | Reg31IsStackPointer => wrap64 (registers_ (state_ s) code)
  end.

(** Modelled from the spec: the write accessor matching [ReadRegister]. *)
Definition WriteRegister (s : CustomSimulator) (code v : Z) (mode : Reg31Mode) : CustomSimulator :=
  let st := state_ s in
  let put := mkSimState (fun c => if c =? code then v else registers_ st c)
                        (vregisters_ st) (pc_ st) (nzcv_ st) (fpcr_ st) in
  match mode with
  | Reg31IsZeroRegister => if code =? 31 then s else with_state s put
  | Reg31IsStackPointer => with_state s put
  end.

Definition ReadXRegister (s : CustomSimulator) (code : Z) : Z :=
  ReadRegister s code Reg31IsZeroRegister.
Definition ReadWRegister (s : CustomSimulator) (code : Z) : Z :=
  wrap32 (ReadRegister s code Reg31IsZeroRegister).
Definition WriteXRegister (s : CustomSimulator) (code v : Z) : CustomSimulator :=
  WriteRegister s code (wrap64 v) Reg31IsZeroRegister.
Definition WriteWRegister (s : CustomSimulator) (code v : Z) : CustomSimulator :=
  WriteRegister s code (wrap32 v) Reg31IsZeroRegister.
Definition WriteSp (s : CustomSimulator) (v : Z) : CustomSimulator :=
  WriteRegister s kSp (wrap64 v) Reg31IsStackPointer.

(** Floating-point registers are kept as raw bit patterns: a double is the
    low 64 bits of a vector register, a float the low 32 bits, and a scalar
    write clears the rest of the register. *)
Definition WriteVRegister (s : CustomSimulator) (code v : Z) : CustomSimulator :=
  let st := state_ s in
  with_state s (mkSimState (registers_ st)
                           (fun c => if c =? code then v else vregisters_ st c)
                           (pc_ st) (nzcv_ st) (fpcr_ st)).
Definition ReadDRegister (s : CustomSimulator) (code : Z) : Z :=
  wrap64 (vregisters_ (state_ s) code).
Definition ReadSRegister (s : CustomSimulator) (code : Z) : Z :=
  wrap32 (vregisters_ (state_ s) code).
Definition WriteDRegister (s : CustomSimulator) (code v : Z) : CustomSimulator :=
  WriteVRegister s code (wrap64 v).
Definition WriteSRegister (s : CustomSimulator) (code v : Z) : CustomSimulator :=
  WriteVRegister s code (wrap32 v).

Definition WritePc (s : CustomSimulator) (target : Z) : CustomSimulator :=
  let st := state_ s in
  with_state s (mkSimState (registers_ st) (vregisters_ st) target (nzcv_ st) (fpcr_ st)).

(** The accessors [CustomSimulator] adds on top. *)
Definition get_sp (s : CustomSimulator) : Z := ReadRegister s kSp Reg31IsStackPointer.
Definition get_x (s : CustomSimulator) (n : Z) : Z := ReadRegister s n Reg31IsStackPointer.
Definition get_lr (s : CustomSimulator) : Z := ReadRegister s kLinkRegCode Reg31IsZeroRegister.
Definition get_fp (s : CustomSimulator) : Z := ReadXRegister s kFp.

(** A VIXL [Instruction] is the address of an instruction word in host
    memory. *)
Definition Instruction : Type := Z.

Definition GetInstructionBits (s : CustomSimulator) (instr : Instruction) : Z :=
  load32 (memory_ s) instr.
Definition Mask (s : CustomSimulator) (instr : Instruction) (mask : Z) : Z :=
  Z.land (GetInstructionBits s instr) mask.
Definition GetRn (s : CustomSimulator) (instr : Instruction) : Z :=
  Z.land (Z.shiftr (GetInstructionBits s instr) 5) 31.
Definition GetNextInstruction (instr : Instruction) : Instruction :=
  instr + kInstructionSize.

(** ** What the runtime hands over *)

(** A NUL-terminated string in host memory: its address and its characters. *)
Record CString : Type := mkCString {
  c_ptr : Z;
  c_chars : string
}.

(** The handful of [ArtMethod] queries the bridge makes.  [method_ptr] is the
    address of the object; [OatMethodQuickCode] is the address of its compiled
    code, 0 (null) when there is none. *)
Record ArtMethod : Type := mkArtMethod {
  method_ptr : Z;
  IsAbstract : bool;
  IsNative : bool;
  CanBeSimulated : bool;
  OatMethodQuickCode : Z;
  PrettyMethod : string
}.

(** The facade object: the simulator it owns and the stack pointer saved by
    the last argument packing. *)
Record CodeSimulatorArm64 : Type := mkCodeSimulatorArm64 {
  simulator_ : CustomSimulator;
  saved_sp_ : Z
}.

(** Everything the bridge consumes from outside this file: build-time
    switches, the runtime mode, the thread's marking flag, VIXL's encoding
    constants for register branches, the host-native functions behind the
    entry-point addresses, and the base simulator's own branch execution, run
    loop and reset values. *)
Class Collaborators : Type := {
  kIsDebugBuild : bool;
  kUseReadBarrier : bool;
  SimulatorMode : bool;
  GetIsGcMarking : Z -> bool;
  UnconditionalBranchToRegisterMask : Z;
  BR : Z;
  BLR : Z;
  HostCall : Z -> list Z -> Memory -> Memory * Z;
  Simulator_VisitUnconditionalBranchToRegister :
    CustomSimulator -> Instruction -> Outcome CustomSimulator;
  Simulator_RunFrom : CustomSimulator -> Instruction -> Outcome CustomSimulator;
  kCleanState : SimState
}.

Section Bridge.
Context {world : Collaborators}.

(** DCHECK: compiled in for debug builds only. *)
Definition DCHECK (cond : bool) : Outcome unit :=
  if kIsDebugBuild && negb cond then Fatal DCheckFailed else Ok tt.

(** ** Call interceptor *)

Definition SetEntryPoints (s : CustomSimulator) (qpoints : QuickEntryPoints)
  : Outcome CustomSimulator :=
  DCHECK (match qpoints_ s with None => true | Some _ => false end) ;;;
  Ok (mkCustomSimulator (state_ s) (Some qpoints) (memory_ s) (calls_ s)).

(** Parameter types of the intercepted services: a pointer travels in an X
    register, an int32_t in a W register. *)
Inductive ParamType : Type := PointerParam | Int32Param.

(** Arguments are taken from x0, x1, ... in order. *)
Fixpoint ReadParameters (s : CustomSimulator) (ps : list ParamType) (code : Z) : list Z :=
  match ps with
  | [] => []
  | PointerParam :: rest => ReadXRegister s code :: ReadParameters s rest (code + 1)
  | Int32Param :: rest => ReadWRegister s code :: ReadParameters s rest (code + 1)
  end.

(** Modelled from the spec: Simulator::RuntimeCallVoid of VIXL.  The native
    function is called once with arguments read from the argument registers;
    nothing is written back. *)
Definition RuntimeCallVoid (s : CustomSimulator) (f : Z) (ps : list ParamType)
  : CustomSimulator :=
  let args := ReadParameters s ps 0 in
  let '(m', _) := HostCall f args (memory_ s) in
  mkCustomSimulator (state_ s) (qpoints_ s) m' (mkRuntimeCall f args :: calls_ s).

(** Modelled from the spec: Simulator::RuntimeCallNonVoid of VIXL.  As
    [RuntimeCallVoid], and the (pointer-typed) return value is written into
    the return register x0. *)
Definition RuntimeCallNonVoid (s : CustomSimulator) (f : Z) (ps : list ParamType)
  : CustomSimulator :=
  let args := ReadParameters s ps 0 in
  let '(m', r) := HostCall f args (memory_ s) in
  WriteXRegister
    (mkCustomSimulator (state_ s) (qpoints_ s) m' (mkRuntimeCall f args :: calls_ s))
    0 r.

(** The return type a [RuntimeCallHelper] is instantiated at. *)
Inductive ReturnType : Type := VoidReturn | PointerReturn.

(** [RuntimeCallHelper<R, P...>::Execute]: the specialization for a void
    return type calls [RuntimeCallVoid], the general one
    [RuntimeCallNonVoid]. *)
Definition RuntimeCallHelper_Execute (R : ReturnType) (P : list ParamType)
  (simulator : CustomSimulator) (f : Z) : CustomSimulator :=
  match R with
  | VoidReturn => RuntimeCallVoid simulator f P
  | PointerReturn => RuntimeCallNonVoid simulator f P
  end.

(** [qpoints_->...]: following the table pointer. *)
Definition deref_qpoints (s : CustomSimulator) : Outcome QuickEntryPoints :=
  match qpoints_ s with
  | Some q => Ok q
  | None => Fatal NullDereference
  end.

Definition VisitUnconditionalBranchToRegister (s : CustomSimulator) (instr : Instruction)
  : Outcome CustomSimulator :=
  DCHECK (match qpoints_ s with None => false | Some _ => true end) ;;;
  if Mask s instr UnconditionalBranchToRegisterMask =? BR then
    let target := ReadXRegister s (GetRn s instr) in
    let lr := get_lr s in
    q <- deref_qpoints s ;;
    if target =? pTestSuspend q then
      Ok (WritePc (RuntimeCallHelper_Execute VoidReturn [] s (pTestSuspend q)) lr)
    else
      Simulator_VisitUnconditionalBranchToRegister s instr
  else if Mask s instr UnconditionalBranchToRegisterMask =? BLR then
    let target := ReadXRegister s (GetRn s instr) in
    let lr := GetNextInstruction instr in
    q <- deref_qpoints s ;;
    if target =? pAllocObjectInitialized q then
      Ok (WritePc (RuntimeCallHelper_Execute PointerReturn [PointerParam] s
                    (pAllocObjectInitialized q)) lr)
    else if (target =? pAllocArrayResolved8 q) || (target =? pAllocArrayResolved16 q)
            || (target =? pAllocArrayResolved32 q) || (target =? pAllocArrayResolved64 q) then
      Ok (WritePc (RuntimeCallHelper_Execute PointerReturn [PointerParam; Int32Param] s
                    target) lr)
    else
      Simulator_VisitUnconditionalBranchToRegister s instr
  else
    Simulator_VisitUnconditionalBranchToRegister s instr.

(** ** Compiled-code lookup *)

Definition GetQuickCodeFromArtMethod (method : ArtMethod) : Outcome Z :=
  DCHECK (negb (IsAbstract method)) ;;;
  DCHECK (negb (IsNative method)) ;;;
  DCHECK SimulatorMode ;;;
  DCHECK (CanBeSimulated method) ;;;
  let code := OatMethodQuickCode method in
  if negb (code =? 0) then Ok code else Ok 0.

Definition RunFrom (cs : CodeSimulatorArm64) (code_buffer : Z) : Outcome CodeSimulatorArm64 :=
  s <- Simulator_RunFrom (simulator_ cs) code_buffer ;;
  Ok (mkCodeSimulatorArm64 s (saved_sp_ cs)).

Definition GetCReturnBool (cs : CodeSimulatorArm64) : bool :=
  negb (ReadWRegister (simulator_ cs) 0 =? 0).

Definition GetCReturnInt32 (cs : CodeSimulatorArm64) : Z :=
  ReadWRegister (simulator_ cs) 0.

Definition GetCReturnInt64 (cs : CodeSimulatorArm64) : Z :=
  ReadXRegister (simulator_ cs) 0.

(** ** Calling-convention marshaller *)

(** [JValue] is an eight-byte union: the double and the 64-bit integer
    members cover all of it, the float member its first four bytes. *)
Definition SetD (s : CustomSimulator) (result d : Z) : CustomSimulator :=
  with_memory s (store64 (memory_ s) result d).
Definition SetF (s : CustomSimulator) (result f : Z) : CustomSimulator :=
  with_memory s (store32 (memory_ s) result f).
Definition SetJ (s : CustomSimulator) (result j : Z) : CustomSimulator :=
  with_memory s (store64 (memory_ s) result j).

(** [shorty[0]]; the terminating NUL when the string is empty. *)
Definition first_char (shorty : string) : ascii :=
  match shorty with
  | EmptyString => zero
  | String c _ => c
  end.

(** [shorty++]. *)
Definition skip_char (shorty : string) : string :=
  match shorty with
  | EmptyString => EmptyString
  | String _ rest => rest
  end.

Definition GetResultFromShorty (s : CustomSimulator) (result : Z) (shorty : CString)
  : CustomSimulator :=
  let c := first_char (c_chars shorty) in
  if Ascii.eqb c "V" then s
  else if Ascii.eqb c "D" then SetD s result (ReadDRegister s 0)
  else if Ascii.eqb c "F" then SetF s result (ReadSRegister s 0)
  else SetJ s result (ReadXRegister s 0).

Definition kRegisterIndexLimit : Z := 8.

(** The loop that fills registers from [args] according to the shorty.  The
    cursors are advanced by the write of each parameter and tested after
    it. *)
Fixpoint FillRegisters (s : CustomSimulator) (shorty : string) (args gpr_index fpr_index : Z)
  : Outcome CustomSimulator :=
  match shorty with
  | EmptyString => Ok s
  | String c rest =>
      if Ascii.eqb c zero then Ok s
      else
        let '(s', args', gpr_index', fpr_index') :=
          if Ascii.eqb c "D" then
            (WriteDRegister s fpr_index (load64 (memory_ s) args),
             args + 8, gpr_index, fpr_index + 1)
          else if Ascii.eqb c "J" then
            (WriteXRegister s gpr_index (load64 (memory_ s) args),
             args + 8, gpr_index + 1, fpr_index)
          else if Ascii.eqb c "F" then
            (WriteSRegister s fpr_index (load32 (memory_ s) args),
             args + 4, gpr_index, fpr_index + 1)
          else
            (WriteWRegister s gpr_index (load32 (memory_ s) args),
             args + 4, gpr_index + 1, fpr_index) in
        if (gpr_index' >? kRegisterIndexLimit) || (fpr_index' <? kRegisterIndexLimit)
        then Fatal Unreachable
        else FillRegisters s' rest args' gpr_index' fpr_index'
  end.

(** [save_registers[i] = get_x(i + 14)] for the given indices, in order. *)
Fixpoint save_callee_saved (s : CustomSimulator) (save_registers : Z) (indices : list Z)
  (m : Memory) : Memory :=
  match indices with
  | [] => m
  | i :: rest =>
      save_callee_saved s save_registers rest
        (store64 m (save_registers + 8 * i) (get_x s (i + 14)))
  end.

Definition InitRegistersForInvokeStub (cs : CodeSimulatorArm64) (method : ArtMethod)
  (args args_size_in_bytes self result : Z) (shorty : CString) (isStatic : bool)
  : Outcome CodeSimulatorArm64 :=
  (* Set registers x0, x4, x5, and x19. *)
  let s := WriteXRegister (simulator_ cs) 0 (method_ptr method) in
  let s := WriteXRegister s kSelf self in
  let s := WriteXRegister s 4 result in
  let s := WriteXRegister s 5 (c_ptr shorty) in
  let saved_sp := get_sp s in
  let regs_save_size_in_bytes := kXRegSizeInBytes * 15 in
  let frame_save_size := regs_save_size_in_bytes + kXRegSizeInBytes + args_size_in_bytes in
  let new_sp := Z.land (wrap64 (saved_sp - frame_save_size)) 0xFFFFFFFFFFFFFFF0 in
  let s := WriteSp s new_sp in
  (* Store null into ArtMethod* at bottom of frame. *)
  let m := store64 (memory_ s) new_sp 0 in
  let new_sp := new_sp + 8 in
  (* Copy arguments into stack frame. *)
  let m := memcpy m new_sp args (args_size_in_bytes * 4) in
  (* Callee-saved registers. *)
  let save_registers := saved_sp + 3 * 8 in
  let m := store64 m (save_registers + 8 * 0) (get_fp s) in
  let m := store64 m (save_registers + 8 * 1) (get_lr s) in
  let m := store64 m (save_registers + 8 * 2) (get_x s 4) in
  let m := store64 m (save_registers + 8 * 3) (get_x s 5) in
  let m := store64 m (save_registers + 8 * 4) saved_sp in
  let m := store64 m (save_registers + 8 * 5) (get_x s kSelf) in
  let m := save_callee_saved s save_registers [6; 7; 8; 9; 10; 11; 12; 13; 14] m in
  let s := with_memory s m in
  (* Use xFP (Frame Pointer) now, as it's callee-saved. *)
  let s := WriteXRegister s kFp (saved_sp - regs_save_size_in_bytes) in
  (* Fill registers from args, according to shorty. *)
  let fpr_index := 0 in
  let gpr_index := 1 in
  let shorty := skip_char (c_chars shorty) in
  let '(s, args, gpr_index) :=
    if negb isStatic
    then (WriteWRegister s gpr_index (load32 (memory_ s) args), args + 4, gpr_index + 1)
    else (s, args, gpr_index) in
  s <- FillRegisters s shorty args gpr_index fpr_index ;;
  (* REFRESH_MARKING_REGISTER *)
  let s := if kUseReadBarrier
           then WriteWRegister s kMR (if GetIsGcMarking self then 1 else 0)
           else s in
  Ok (mkCodeSimulatorArm64 s saved_sp).

(** ** Simulator facade *)

(** Modelled from the spec: Simulator::ResetState of VIXL puts every
    register and flag back to a fixed clean baseline; memory, the entry-point
    table and the record of past native calls are not part of that state. *)
Definition ResetState (s : CustomSimulator) : CustomSimulator :=
  with_state s kCleanState.

Definition InitEntryPoints (cs : CodeSimulatorArm64) (qpoints : QuickEntryPoints)
  : Outcome CodeSimulatorArm64 :=
  s <- SetEntryPoints (simulator_ cs) qpoints ;;
  Ok (mkCodeSimulatorArm64 s (saved_sp_ cs)).

Definition Invoke (cs : CodeSimulatorArm64) (method : ArtMethod)
  (args args_size_in_bytes self result : Z) (shorty : CString) (isStatic : bool)
  : Outcome CodeSimulatorArm64 :=
  cs <- InitRegistersForInvokeStub cs method args args_size_in_bytes self result
          shorty isStatic ;;
  quick_code <- GetQuickCodeFromArtMethod method ;;
  cs <- RunFrom cs quick_code ;;
  let s := GetResultFromShorty (simulator_ cs) result shorty in
  (* Ensure simulation state is not carried over from one method to another. *)
  let s := ResetState s in
  (* Reset stack pointer. *)
  Ok (mkCodeSimulatorArm64 (WriteSp s (saved_sp_ cs)) (saved_sp_ cs)).

End Bridge.

(** ** Eligibility policy *)

Open Scope string_scope.

Definition kEnableSimulateMethodAllowList : bool := false.

Definition simulate_method_allow_list : list string :=
  [ "other.TestByte.testDotProdComplex";
    "other.TestByte.testDotProdComplexSignedCastedToUnsigned";
    "other.TestByte.testDotProdComplexUnsigned";
    "other.TestByte.testDotProdComplexUnsignedCastedToSigned" ].

Definition avoid_simulation_method_list : list string :=
  [ "main"; "<clinit>"; "java."; "sun."; "dalvik."; "android."; "libcore." ].

(** [name.find(s)]: position of the first occurrence of [s] in [name], [None]
    standing for [std::string::npos]. *)
Definition find (name s : string) : option nat := String.index 0 s name.

Definition is_npos (r : option nat) : bool :=
  match r with
  | None => true
  | Some _ => false
  end.

(** The allow-list loop: [true] at the first entry found in [name], [false]
    when the list is exhausted. *)
Fixpoint allow_loop (name : string) (entries : list string) : bool :=
  match entries with
  | [] => false
  | s :: rest => if negb (is_npos (find name s)) then true else allow_loop name rest
  end.

(** The deny-list loop: [false] at the first entry found in [name], [true]
    when the list is exhausted. *)
Fixpoint avoid_loop (name : string) (entries : list string) : bool :=
  match entries with
  | [] => true
  | s :: rest => if negb (is_npos (find name s)) then false else avoid_loop name rest
  end.

(** The body of [CanSimulate] over the three file-level constants. *)
Definition CanSimulateWith (enable_allow_list : bool) (allow_list avoid_list : list string)
  (name : string) : bool :=
  if negb (is_npos (find name "$simulate$")) then true
  else if enable_allow_list then allow_loop name allow_list
  else avoid_loop name avoid_list.

Definition CanSimulate (method : ArtMethod) : bool :=
  CanSimulateWith kEnableSimulateMethodAllowList simulate_method_allow_list
    avoid_simulation_method_list (PrettyMethod method).

(** [s] occurs in [name] as a contiguous run of characters. *)
Definition Substring (s name : string) : Prop :=
  exists before after, name = before ++ s ++ after.

Close Scope string_scope.

(** ** Vocabulary of the properties *)

(** The six addresses the interceptor knows. *)
Definition interception_table (q : QuickEntryPoints) : list Z :=
  [ pTestSuspend q; pAllocObjectInitialized q; pAllocArrayResolved8 q;
    pAllocArrayResolved16 q; pAllocArrayResolved32 q; pAllocArrayResolved64 q ].

(** The allocation services, the ones reached through BLR. *)
Definition allocation_services (q : QuickEntryPoints) : list Z :=
  [ pAllocObjectInitialized q; pAllocArrayResolved8 q; pAllocArrayResolved16 q;
    pAllocArrayResolved32 q; pAllocArrayResolved64 q ].

(** What a diverted branch leaves behind: one more native call on record, to
    [f] with arguments [args]; host memory as that call left it; the program
    counter at [resume]; when [nonvoid], the value returned by the call in x0;
    and nothing else of the simulated state touched. *)
Definition Diverted {world : Collaborators} (s s' : CustomSimulator) (f : Z) (args : list Z)
  (nonvoid : bool) (resume : Z) : Prop :=
  calls_ s' = mkRuntimeCall f args :: calls_ s /\
  memory_ s' = fst (HostCall f args (memory_ s)) /\
  pc_ (state_ s') = resume /\
  (if nonvoid
   then ReadXRegister s' 0 = wrap64 (snd (HostCall f args (memory_ s))) /\
        forall c, c <> 0 -> registers_ (state_ s') c = registers_ (state_ s) c
   else forall c, registers_ (state_ s') c = registers_ (state_ s) c) /\
  vregisters_ (state_ s') = vregisters_ (state_ s) /\
  nzcv_ (state_ s') = nzcv_ (state_ s) /\
  fpcr_ (state_ s') = fpcr_ (state_ s) /\
  qpoints_ s' = qpoints_ s.

(** Register-class counts of a parameter string: 'D' and 'F' go to the
    floating-point class, every other tag to the integer class. *)
Fixpoint fpr_params (params : string) : Z :=
  match params with
  | EmptyString => 0
  | String c rest =>
      (if Ascii.eqb c "D" || Ascii.eqb c "F" then 1 else 0) + fpr_params rest
  end.

Fixpoint gpr_params (params : string) : Z :=
  match params with
  | EmptyString => 0
  | String c rest =>
      (if Ascii.eqb c "D" || Ascii.eqb c "F" then 0 else 1) + gpr_params rest
  end.

(** Whether a shorty declares at least one parameter after its return
    tag. *)
Definition has_parameter (shorty : string) : bool :=
  match skip_char shorty with
  | EmptyString => false
  | String c _ => negb (Ascii.eqb c zero)
  end.

(** ** Concrete scenarios

    A small world to run the definitions in: a debug build with read
    barriers, VIXL's encodings of BR and BLR, native services that leave
    memory alone and return a recognisable pointer, a base simulator whose
    register branch simply jumps to the target, and a run loop standing for a
    compiled method that returns a 33-bit value in x0. *)

Definition demo_world : Collaborators := {|
  kIsDebugBuild := true;
  kUseReadBarrier := true;
  SimulatorMode := true;
  GetIsGcMarking := fun _ => false;
  UnconditionalBranchToRegisterMask := 0xFFFFFC00;
  BR := 0xD61F0000;
  BLR := 0xD63F0000;
  HostCall := fun f args m => (m, 0xCAFE0);
  Simulator_VisitUnconditionalBranchToRegister :=
    fun s instr => Ok (WritePc s (ReadXRegister s (GetRn s instr)));
  Simulator_RunFrom := fun s code => Ok (WriteXRegister (WritePc s code) 0 0x123456789);
  kCleanState := mkSimState (fun _ => 0xbadbeef) (fun _ => 0x7ff000007f800001) 0 0 0
|}.

Definition demo_qpoints : QuickEntryPoints :=
  mkQuickEntryPoints 0x5000 0x5100 0x5200 0x5300 0x5400 0x5500.

(** Registers: x0 a class pointer, x1 an array length, x16..x18 branch
    targets (the suspend check, the 32-bit array allocator, an ordinary
    address), x20..x28 recognisable callee-saved values, x29/x30 the caller's
    frame pointer and return address, and the stack pointer in slot 31. *)
Definition demo_registers : Z -> Z :=
  fun c =>
    if c =? 0 then 0x9000 else if c =? 1 then 10
    else if c =? 16 then 0x5000 else if c =? 17 then 0x5400 else if c =? 18 then 0x6000
    else if (20 <=? c) && (c <=? 28) then 0xC00 + c
    else if c =? 29 then 0x1111 else if c =? 30 then 0x2222
    else if c =? 31 then 0x10000 else 0.

(** Memory: "br x16", "blr x17", "br x18" and "ret" at 0x4000 onwards, and
    the argument buffer at 0x2000 holding the 64-bit value 42. *)
Definition demo_memory : Memory :=
  store64
    (store32 (store32 (store32 (store32 (fun _ => 0)
       0x4000 0xD61F0200) 0x4004 0xD63F0220) 0x4008 0xD61F0240) 0x400C 0xD65F03C0)
    0x2000 42.

Definition demo_simulator : CustomSimulator :=
  mkCustomSimulator (mkSimState demo_registers (fun _ => 0) 0 0 0)
                    (Some demo_qpoints) demo_memory [].

Definition demo_code_simulator : CodeSimulatorArm64 :=
  mkCodeSimulatorArm64 demo_simulator 0.

(** A simulatable method with compiled code at 0x4000, and one for which the
    metadata reports no compiled code. *)
Definition demo_method : ArtMethod :=
  mkArtMethod 0x8000 false false true 0x4000 "int Main.$simulate$answer()".
Definition demo_method_without_code : ArtMethod :=
  mkArtMethod 0x8040 false false true 0 "void Main.helper()".

Definition demo_result : Z := 0x3000.
Definition demo_self : Z := 0x7000.

(** The same world as a release build without read barriers. *)
Definition demo_release_world : Collaborators := {|
  kIsDebugBuild := false;
  kUseReadBarrier := false;
  SimulatorMode := true;
  GetIsGcMarking := fun _ => false;
  UnconditionalBranchToRegisterMask := 0xFFFFFC00;
  BR := 0xD61F0000;
  BLR := 0xD63F0000;
  HostCall := fun f args m => (m, 0xCAFE0);
  Simulator_VisitUnconditionalBranchToRegister :=
    fun s instr => Ok (WritePc s (ReadXRegister s (GetRn s instr)));
  Simulator_RunFrom := fun s code => Ok (WriteXRegister (WritePc s code) 0 0x123456789);
  kCleanState := mkSimState (fun _ => 0xbadbeef) (fun _ => 0x7ff000007f800001) 0 0 0
|}.

(** The simulator as its constructor leaves it: no entry-point table yet. *)
Definition demo_simulator_without_table : CustomSimulator :=
  mkCustomSimulator (state_ demo_simulator) None (memory_ demo_simulator) [].

(** "br x17" and "blr x16" at 0x4010: the branch forms crossed with the
    services of the other form. *)
Definition demo_crossed_simulator : CustomSimulator :=
  with_memory demo_simulator
    (store32 (store32 demo_memory 0x4010 0xD61F0220) 0x4014 0xD63F0200).

(** An abstract method. *)
Definition demo_abstract_method : ArtMethod :=
  mkArtMethod 0x8080 true false true 0 "void Shape.draw()".

(** * Properties *)

(** ** Memory *)

Lemma store8_same (m : Memory) (a v : Z) : store8 m a v a = v mod 256.
Proof. unfold store8. now rewrite Z.eqb_refl. Qed.

Lemma store8_other (m : Memory) (a v x : Z) : x <> a -> store8 m a v x = m x.
Proof.
  intros Hne. unfold store8.
  destruct (Z.eqb_spec x a) as [E | _]; [contradiction | reflexivity].
Qed.

(** A store leaves every byte outside its range alone. *)
Lemma store_le_other (n : nat) :
  forall (m : Memory) (a v x : Z),
    x < a \/ a + Z.of_nat n <= x -> store_le n m a v x = m x.
Proof.
  induction n as [| k IH]; intros m a v x Hout.
  - reflexivity.
  - cbn [store_le]. rewrite IH by lia. apply store8_other. lia.
Qed.

(** Reading back what was just stored gives the low [n] bytes of the value. *)
Lemma load_store_le (n : nat) :
  forall (m : Memory) (a v : Z),
    load_le n (store_le n m a v) a = v mod 256 ^ Z.of_nat n.
Proof.
  induction n as [| k IH]; intros m a v.
  - cbn. now rewrite Z.mod_1_r.
  - cbn [store_le load_le].
    rewrite store_le_other by lia.
    rewrite store8_same, IH, Z.mod_mod by lia.
    rewrite Nat2Z.inj_succ, Z.pow_succ_r by lia.
    rewrite Z.rem_mul_r by lia.
    reflexivity.
Qed.

(** A load sees only the bytes of its own range. *)
Lemma load_le_ext (n : nat) :
  forall (m m' : Memory) (a : Z),
    (forall x, a <= x < a + Z.of_nat n -> m x = m' x) ->
    load_le n m a = load_le n m' a.
Proof.
  induction n as [| k IH]; intros m m' a Hsame.
  - reflexivity.
  - cbn [load_le]. rewrite (Hsame a) by lia.
    rewrite (IH m m' (a + 1)); [reflexivity |].
    intros x Hx. apply Hsame. lia.
Qed.

Lemma wrap64_range (z : Z) : 0 <= wrap64 z < 2 ^ 64.
Proof. unfold wrap64. apply Z.mod_pos_bound. lia. Qed.

Lemma wrap32_range (z : Z) : 0 <= wrap32 z < 2 ^ 32.
Proof. unfold wrap32. apply Z.mod_pos_bound. lia. Qed.

Lemma wrap64_idem (z : Z) : wrap64 (wrap64 z) = wrap64 z.
Proof. unfold wrap64. apply Z.mod_mod. lia. Qed.

Lemma load64_store64 (m : Memory) (a v : Z) : load64 (store64 m a v) a = wrap64 v.
Proof. unfold load64, store64, wrap64. now rewrite load_store_le. Qed.

Lemma load32_store32 (m : Memory) (a v : Z) : load32 (store32 m a v) a = wrap32 v.
Proof. unfold load32, store32, wrap32. now rewrite load_store_le. Qed.

Lemma ReadXRegister_wrapped (s : CustomSimulator) (code : Z) :
  wrap64 (ReadXRegister s code) = ReadXRegister s code.
Proof.
  unfold ReadXRegister, ReadRegister.
  destruct (code =? 31); [reflexivity | apply wrap64_idem].
Qed.

Lemma ReadDRegister_wrapped (s : CustomSimulator) (code : Z) :
  wrap64 (ReadDRegister s code) = ReadDRegister s code.
Proof. apply wrap64_idem. Qed.

Lemma ReadSRegister_wrapped (s : CustomSimulator) (code : Z) :
  wrap32 (ReadSRegister s code) = ReadSRegister s code.
Proof. unfold ReadSRegister, wrap32. apply Z.mod_mod. lia. Qed.

(** ** Result extraction *)

(** Any tag other than 'V', 'D' and 'F' takes the default branch. *)
Lemma GetResultFromShorty_default (s : CustomSimulator) (result : Z) (shorty : CString) :
  first_char (c_chars shorty) <> "V"%char ->
  first_char (c_chars shorty) <> "D"%char ->
  first_char (c_chars shorty) <> "F"%char ->
  GetResultFromShorty s result shorty = SetJ s result (ReadXRegister s 0).
Proof.
  intros HV HD HF. unfold GetResultFromShorty.
  destruct (Ascii.eqb_spec (first_char (c_chars shorty)) "V") as [E | _]; [contradiction |].
  destruct (Ascii.eqb_spec (first_char (c_chars shorty)) "D") as [E | _]; [contradiction |].
  destruct (Ascii.eqb_spec (first_char (c_chars shorty)) "F") as [E | _]; [contradiction |].
  reflexivity.
Qed.

(** C9: result extraction reads x0 for integer and reference return tags, d0
    for a double and s0 for a float, storing what it read into the result
    slot; for a void return it reads no register and leaves the simulator,
    and with it the result slot, exactly as it was. *)
Theorem C9_result_extraction_by_return_tag :
  forall (s : CustomSimulator) (result : Z) (shorty : CString),
    (first_char (c_chars shorty) = "V"%char ->
       GetResultFromShorty s result shorty = s) /\
    (first_char (c_chars shorty) = "D"%char ->
       GetResultFromShorty s result shorty = SetD s result (ReadDRegister s 0) /\
       load64 (memory_ (GetResultFromShorty s result shorty)) result = ReadDRegister s 0) /\
    (first_char (c_chars shorty) = "F"%char ->
       GetResultFromShorty s result shorty = SetF s result (ReadSRegister s 0) /\
       load32 (memory_ (GetResultFromShorty s result shorty)) result = ReadSRegister s 0) /\
    (In (first_char (c_chars shorty)) ["Z"; "B"; "C"; "S"; "I"; "J"; "L"]%char ->
       GetResultFromShorty s result shorty = SetJ s result (ReadXRegister s 0) /\
       load64 (memory_ (GetResultFromShorty s result shorty)) result = ReadXRegister s 0).
Proof.
  intros s result shorty.
  split; [| split; [| split]].
  - intros H. unfold GetResultFromShorty. rewrite H. reflexivity.
  - intros H.
    assert (E : GetResultFromShorty s result shorty = SetD s result (ReadDRegister s 0))
      by (unfold GetResultFromShorty; rewrite H; reflexivity).
    split; [exact E |]. rewrite E. unfold SetD, with_memory. cbn [memory_].
    rewrite load64_store64. apply ReadDRegister_wrapped.
  - intros H.
    assert (E : GetResultFromShorty s result shorty = SetF s result (ReadSRegister s 0))
      by (unfold GetResultFromShorty; rewrite H; reflexivity).
    split; [exact E |]. rewrite E. unfold SetF, with_memory. cbn [memory_].
    rewrite load32_store32. apply ReadSRegister_wrapped.
  - intros H.
    assert (E : GetResultFromShorty s result shorty = SetJ s result (ReadXRegister s 0)).
    { apply GetResultFromShorty_default;
        intro E; rewrite E in H; cbn in H;
        repeat (destruct H as [H | H]; [discriminate H |]); exact H. }
    split; [exact E |]. rewrite E. unfold SetJ, with_memory. cbn [memory_].
    rewrite load64_store64. apply ReadXRegister_wrapped.
Qed.

(** A void return at work: the result slot keeps the bytes it had. *)
Lemma C9_witness :
  GetResultFromShorty demo_simulator demo_result (mkCString 0x3100 "VJ") = demo_simulator.
Proof.
  apply (proj1 (C9_result_extraction_by_return_tag demo_simulator demo_result
                  (mkCString 0x3100 "VJ"))).
  reflexivity.
Defined.

(** C10: for every return tag other than 'V', 'D' and 'F' the whole 64-bit
    content of x0 lands in the eight bytes of the result slot, whatever width
    the tag declares; no other byte of memory and no register changes. *)
Theorem C10_default_tag_stores_full_x0 :
  forall (s : CustomSimulator) (result : Z) (shorty : CString),
    first_char (c_chars shorty) <> "V"%char ->
    first_char (c_chars shorty) <> "D"%char ->
    first_char (c_chars shorty) <> "F"%char ->
    load64 (memory_ (GetResultFromShorty s result shorty)) result = ReadXRegister s 0 /\
    (forall x, x < result \/ result + 8 <= x ->
               memory_ (GetResultFromShorty s result shorty) x = memory_ s x) /\
    state_ (GetResultFromShorty s result shorty) = state_ s.
Proof.
  intros s result shorty HV HD HF.
  rewrite GetResultFromShorty_default by assumption.
  unfold SetJ, with_memory. cbn [memory_ state_]. repeat split.
  - rewrite load64_store64. apply ReadXRegister_wrapped.
  - intros x Hx. unfold store64. apply store_le_other. lia.
Qed.

(** An "int" return with 33 significant bits in x0: all of them are stored. *)
Lemma C10_witness :
  load64 (memory_ (GetResultFromShorty (WriteXRegister demo_simulator 0 0x123456789)
                     demo_result (mkCString 0x3100 "I"))) demo_result
  = 0x123456789.
Proof.
  refine (eq_trans (proj1 (C10_default_tag_stores_full_x0
                             (WriteXRegister demo_simulator 0 0x123456789)
                             demo_result (mkCString 0x3100 "I") _ _ _)) _).
  - intro E; discriminate E.
  - intro E; discriminate E.
  - intro E; discriminate E.
  - reflexivity.
Defined.

(** ** Eligibility policy *)

Lemma prefix_spec (s1 : string) :
  forall s2 : string, String.prefix s1 s2 = true <-> exists t, s2 = (s1 ++ t)%string.
Proof.
  induction s1 as [| a s1' IH]; intros s2.
  - cbn. destruct s2; split; intros _; try reflexivity; eexists; reflexivity.
  - destruct s2 as [| b s2']; cbn.
    + split; [discriminate | intros [t Ht]; discriminate Ht].
    + destruct (ascii_dec a b) as [-> | Hne].
      * rewrite IH. split; intros [t Ht]; exists t.
        -- now rewrite Ht.
        -- now injection Ht.
      * split; [discriminate |].
        intros [t Ht]. injection Ht as Hb _. congruence.
Qed.

(** [std::string::find] succeeds exactly on substrings. *)
Lemma find_spec (s : string) :
  forall name : string, is_npos (find name s) = false <-> Substring s name.
Proof.
  unfold find, Substring.
  induction name as [| b name' IH].
  - cbn. destruct s as [| a s']; cbn.
    + split; [intros _; exists EmptyString, EmptyString; reflexivity | reflexivity].
    + split; [discriminate |].
      intros [before [after H]]. destruct before; discriminate H.
  - cbn [String.index].
    destruct (String.prefix s (String b name')) eqn:Hp.
    + cbn. split; [intros _ | reflexivity].
      apply prefix_spec in Hp. destruct Hp as [t Ht].
      exists EmptyString, t. exact Ht.
    + assert (Hnp : ~ exists t, String b name' = (s ++ t)%string).
      { intros H. apply prefix_spec in H. congruence. }
      destruct (String.index 0 s name') as [n |] eqn:Hi; cbn in *.
      * split; [intros _ | reflexivity].
        destruct (proj1 IH eq_refl) as [before [after H]].
        exists (String b before), after. cbn. now rewrite H.
      * split; [discriminate |].
        intros [before [after H]].
        destruct before as [| c before'].
        -- exfalso. apply Hnp. exists after. exact H.
        -- cbn in H. injection H as _ H.
           apply IH. exists before', after. exact H.
Qed.

Lemma find_none_spec (s name : string) :
  is_npos (find name s) = true <-> ~ Substring s name.
Proof.
  rewrite <- find_spec. destruct (is_npos (find name s)); split; congruence.
Qed.

Lemma allow_loop_spec (name : string) (entries : list string) :
  allow_loop name entries = true <-> exists s, In s entries /\ Substring s name.
Proof.
  induction entries as [| e rest IH]; cbn.
  - split; [discriminate | intros [s [[] _]]].
  - destruct (is_npos (find name e)) eqn:Hf; cbn.
    + rewrite IH. apply find_none_spec in Hf.
      split; intros [s [Hin Hs]]; exists s.
      * auto.
      * destruct Hin as [-> | Hin]; [contradiction | auto].
    + split; [intros _ | reflexivity].
      exists e. split; [now left | now apply find_spec].
Qed.

Lemma avoid_loop_spec (name : string) (entries : list string) :
  avoid_loop name entries = true <-> forall s, In s entries -> ~ Substring s name.
Proof.
  induction entries as [| e rest IH]; cbn.
  - split; [intros _ s [] | reflexivity].
  - destruct (is_npos (find name e)) eqn:Hf; cbn.
    + rewrite IH. apply find_none_spec in Hf.
      split; intros H s Hin.
      * destruct Hin as [<- | Hin]; auto.
      * auto.
    + split; [discriminate |].
      intros H. exfalso. apply (H e); [now left | now apply find_spec].
Qed.

Lemma CanSimulateWith_spec (enable_allow_list : bool) (allow_list avoid_list : list string)
  (name : string) :
  CanSimulateWith enable_allow_list allow_list avoid_list name = true <->
  Substring "$simulate$" name \/
  (~ Substring "$simulate$" name /\
   if enable_allow_list
   then exists s, In s allow_list /\ Substring s name
   else forall s, In s avoid_list -> ~ Substring s name).
Proof.
  unfold CanSimulateWith.
  destruct (is_npos (find name "$simulate$")) eqn:Hm; cbn.
  - apply find_none_spec in Hm.
    destruct enable_allow_list.
    + rewrite allow_loop_spec. tauto.
    + rewrite avoid_loop_spec. tauto.
  - apply find_spec in Hm. tauto.
Qed.

(** C8: the three ordered rules, first match winning.  A method whose name
    contains "$simulate$" is always eligible; otherwise, in allow-list mode,
    it is eligible exactly when some allow-list entry occurs in its name;
    otherwise it is eligible exactly when no deny-list entry occurs in its
    name.  [CanSimulate] is that rule at the mode flag and the two lists
    fixed in the file. *)
Theorem C8_CanSimulate_three_ordered_rules :
  forall (method : ArtMethod),
    CanSimulate method =
      CanSimulateWith kEnableSimulateMethodAllowList simulate_method_allow_list
        avoid_simulation_method_list (PrettyMethod method) /\
    forall (enable_allow_list : bool) (allow_list avoid_list : list string),
      CanSimulateWith enable_allow_list allow_list avoid_list (PrettyMethod method) = true <->
      Substring "$simulate$" (PrettyMethod method) \/
      (~ Substring "$simulate$" (PrettyMethod method) /\
       if enable_allow_list
       then exists s, In s allow_list /\ Substring s (PrettyMethod method)
       else forall s, In s avoid_list -> ~ Substring s (PrettyMethod method)).
Proof.
  intros method. split; [reflexivity |].
  intros enable allow avoid. apply CanSimulateWith_spec.
Qed.

(** The policy on a few names: an entry point, a static initializer and a
    library method are refused, an ordinary test method is accepted, and the
    marker overrides the deny-list. *)
Example CanSimulate_samples :
  map (fun name => CanSimulate (mkArtMethod 0 false false true 0 name))
      [ "void Main.main(java.lang.String[])"; "void Foo.<clinit>()";
        "int java.lang.Math.abs(int)"; "int Foo.bar(int)";
        "void java.util.Foo.$simulate$run()" ]%string
  = [false; false; false; true; true].
Proof. reflexivity. Qed.

(** ** Call interceptor *)

Section Interceptor.
Context {world : Collaborators}.

Lemma DCHECK_true : DCHECK true = Ok tt.
Proof. unfold DCHECK. now rewrite andb_false_r. Qed.

Lemma Diverted_void (s : CustomSimulator) (f resume : Z) :
  Diverted s (WritePc (RuntimeCallVoid s f []) resume) f [] false resume.
Proof.
  unfold Diverted, RuntimeCallVoid. cbn [ReadParameters].
  destruct (HostCall f [] (memory_ s)) as [m' r].
  cbn. repeat split.
Qed.

Lemma Diverted_nonvoid (s : CustomSimulator) (f resume : Z) (ps : list ParamType) :
  Diverted s (WritePc (RuntimeCallNonVoid s f ps) resume) f (ReadParameters s ps 0)
           true resume.
Proof.
  unfold Diverted, RuntimeCallNonVoid.
  destruct (HostCall f (ReadParameters s ps 0) (memory_ s)) as [m' r].
  cbn. repeat split.
  - apply wrap64_idem.
  - intros c Hc. destruct (Z.eqb_spec c 0); [contradiction | reflexivity].
Qed.

(** C3: a branch that matches the interception table is diverted.  For a
    BR-form branch to the suspend-check service the native function is called
    once, with no arguments, nothing is written back and the program counter
    becomes the link-register value.  For a BLR-form branch to one of the
    allocation services the function at the target address is called once
    with its arguments from x0 (and w1 for the array variants), its return
    value is written into x0 and the program counter becomes the address of
    the next instruction.  In both cases the outcome is fixed by the native
    call alone: the base simulator's execution of the branch plays no part. *)
Theorem C3_matching_branch_is_diverted :
  forall (s : CustomSimulator) (instr : Instruction) (q : QuickEntryPoints),
    qpoints_ s = Some q ->
    BR <> BLR ->
    (Mask s instr UnconditionalBranchToRegisterMask = BR ->
     ReadXRegister s (GetRn s instr) = pTestSuspend q ->
     exists s',
       VisitUnconditionalBranchToRegister s instr = Ok s' /\
       Diverted s s' (pTestSuspend q) [] false (get_lr s)) /\
    (Mask s instr UnconditionalBranchToRegisterMask = BLR ->
     In (ReadXRegister s (GetRn s instr)) (allocation_services q) ->
     exists s',
       VisitUnconditionalBranchToRegister s instr = Ok s' /\
       Diverted s s' (ReadXRegister s (GetRn s instr))
         (if ReadXRegister s (GetRn s instr) =? pAllocObjectInitialized q
          then [ReadXRegister s 0]
          else [ReadXRegister s 0; ReadWRegister s 1])
         true (GetNextInstruction instr)).
Proof.
  intros s instr q Hq Hforms. split.
  - intros Hbr Htarget.
    unfold VisitUnconditionalBranchToRegister, deref_qpoints.
    rewrite Hq, DCHECK_true. cbn [bind].
    rewrite Hbr, Z.eqb_refl, Htarget, Z.eqb_refl.
    eexists. split; [reflexivity | apply Diverted_void].
  - intros Hblr Htarget.
    unfold VisitUnconditionalBranchToRegister, deref_qpoints.
    rewrite Hq, DCHECK_true. cbn [bind].
    rewrite Hblr.
    destruct (Z.eqb_spec BLR BR) as [E | _]; [symmetry in E; contradiction |].
    rewrite Z.eqb_refl.
    destruct (Z.eqb_spec (ReadXRegister s (GetRn s instr)) (pAllocObjectInitialized q))
      as [E | Hne].
    + eexists. split; [reflexivity |].
      rewrite E. apply (Diverted_nonvoid s _ _ [PointerParam]).
    + assert (Harr : (ReadXRegister s (GetRn s instr) =? pAllocArrayResolved8 q)
                     || (ReadXRegister s (GetRn s instr) =? pAllocArrayResolved16 q)
                     || (ReadXRegister s (GetRn s instr) =? pAllocArrayResolved32 q)
                     || (ReadXRegister s (GetRn s instr) =? pAllocArrayResolved64 q) = true).
      { destruct Htarget as [H | [H | [H | [H | [H | []]]]]];
          [exfalso; apply Hne; symmetry; exact H | | | |];
          rewrite <- H, Z.eqb_refl; repeat rewrite orb_true_r; reflexivity. }
      rewrite Harr.
      eexists. split; [reflexivity |].
      apply (Diverted_nonvoid s _ _ [PointerParam; Int32Param]).
Qed.

(** C4: a register branch whose target is not in the interception table, and
    any instruction that is neither BR nor BLR, is executed by the base
    simulator and by nothing else; there is no error path of its own. *)
Theorem C4_unlisted_branch_defers_to_base_simulator :
  forall (s : CustomSimulator) (instr : Instruction) (q : QuickEntryPoints),
    qpoints_ s = Some q ->
    ~ In (ReadXRegister s (GetRn s instr)) (interception_table q) \/
    (Mask s instr UnconditionalBranchToRegisterMask <> BR /\
     Mask s instr UnconditionalBranchToRegisterMask <> BLR) ->
    VisitUnconditionalBranchToRegister s instr =
    Simulator_VisitUnconditionalBranchToRegister s instr.
Proof.
  intros s instr q Hq Hcase.
  unfold VisitUnconditionalBranchToRegister, deref_qpoints.
  rewrite Hq, DCHECK_true. cbn [bind].
  destruct Hcase as [Habsent | [Hnbr Hnblr]].
  - cbn in Habsent.
    assert (H1 : (ReadXRegister s (GetRn s instr) =? pTestSuspend q) = false)
      by (apply Z.eqb_neq; intro E; apply Habsent; auto).
    assert (H2 : (ReadXRegister s (GetRn s instr) =? pAllocObjectInitialized q) = false)
      by (apply Z.eqb_neq; intro E; apply Habsent; auto).
    assert (H3 : (ReadXRegister s (GetRn s instr) =? pAllocArrayResolved8 q) = false)
      by (apply Z.eqb_neq; intro E; apply Habsent; auto 10).
    assert (H4 : (ReadXRegister s (GetRn s instr) =? pAllocArrayResolved16 q) = false)
      by (apply Z.eqb_neq; intro E; apply Habsent; auto 10).
    assert (H5 : (ReadXRegister s (GetRn s instr) =? pAllocArrayResolved32 q) = false)
      by (apply Z.eqb_neq; intro E; apply Habsent; auto 10).
    assert (H6 : (ReadXRegister s (GetRn s instr) =? pAllocArrayResolved64 q) = false)
      by (apply Z.eqb_neq; intro E; apply Habsent; auto 10).
    rewrite H1, H2, H3, H4, H5, H6. cbn.
    destruct (Mask s instr UnconditionalBranchToRegisterMask =? BR); [reflexivity |].
    destruct (Mask s instr UnconditionalBranchToRegisterMask =? BLR); reflexivity.
  - apply Z.eqb_neq in Hnbr, Hnblr. rewrite Hnbr, Hnblr. reflexivity.
Qed.

End Interceptor.

(** "br x16" with the suspend-check address in x16, and "blr x17" with the
    32-bit array allocator in x17, a class pointer in x0 and length 10 in
    w1. *)
Lemma C3_witness :
  (exists s',
     @VisitUnconditionalBranchToRegister demo_world demo_simulator 0x4000 = Ok s' /\
     @Diverted demo_world demo_simulator s' 0x5000 [] false 0x2222) /\
  (exists s',
     @VisitUnconditionalBranchToRegister demo_world demo_simulator 0x4004 = Ok s' /\
     @Diverted demo_world demo_simulator s' 0x5400 [0x9000; 10] true 0x4008).
Proof.
  assert (Hforms : @BR demo_world <> @BLR demo_world) by (intro E; discriminate E).
  split.
  - apply (proj1 (@C3_matching_branch_is_diverted demo_world demo_simulator 0x4000
                    demo_qpoints eq_refl Hforms)); reflexivity.
  - apply (proj2 (@C3_matching_branch_is_diverted demo_world demo_simulator 0x4004
                    demo_qpoints eq_refl Hforms)).
    + reflexivity.
    + right; right; right; left. reflexivity.
Defined.

(** "br x18" to an address that is in no table, and "ret": both go to the
    base simulator. *)
Lemma C4_witness :
  @VisitUnconditionalBranchToRegister demo_world demo_simulator 0x4008
    = @Simulator_VisitUnconditionalBranchToRegister demo_world demo_simulator 0x4008 /\
  @VisitUnconditionalBranchToRegister demo_world demo_simulator 0x400C
    = @Simulator_VisitUnconditionalBranchToRegister demo_world demo_simulator 0x400C.
Proof.
  split.
  - apply (@C4_unlisted_branch_defers_to_base_simulator demo_world demo_simulator 0x4008
             demo_qpoints eq_refl).
    left. intros H.
    repeat (destruct H as [H | H]; [discriminate H |]). exact H.
  - apply (@C4_unlisted_branch_defers_to_base_simulator demo_world demo_simulator 0x400C
             demo_qpoints eq_refl).
    right. split; intro E; discriminate E.
Defined.

(** ** Argument packing: the register budget *)

Section Marshaller.
Context {world : Collaborators}.

(** The test that follows each parameter asks for [fpr_index] to be at least
    the limit, so the very first parameter already fails it: the cursor is
    then at most one. *)
Lemma FillRegisters_first_parameter (s : CustomSimulator) (c : ascii) (rest : string)
  (args gpr_index fpr_index : Z) :
  c <> zero ->
  fpr_index + 1 < kRegisterIndexLimit ->
  FillRegisters s (String c rest) args gpr_index fpr_index = Fatal Unreachable.
Proof.
  intros Hc Hfpr. cbn [FillRegisters].
  destruct (Ascii.eqb_spec c zero) as [E | _]; [contradiction |].
  assert (Hlt : (fpr_index <? kRegisterIndexLimit) = true) by (apply Z.ltb_lt; lia).
  assert (Hlt' : (fpr_index + 1 <? kRegisterIndexLimit) = true) by (apply Z.ltb_lt; lia).
  destruct (Ascii.eqb c "D"); [now rewrite Hlt', orb_true_r |].
  destruct (Ascii.eqb c "J"); [now rewrite Hlt, orb_true_r |].
  destruct (Ascii.eqb c "F"); [now rewrite Hlt', orb_true_r |].
  now rewrite Hlt, orb_true_r.
Qed.

Lemma FillRegisters_no_parameter (s : CustomSimulator) (params : string)
  (args gpr_index fpr_index : Z) :
  match params with
  | EmptyString => true
  | String c _ => Ascii.eqb c zero
  end = true ->
  FillRegisters s params args gpr_index fpr_index = Ok s.
Proof.
  destruct params as [| c rest]; cbn; [reflexivity |].
  intros ->. reflexivity.
Qed.

(** Argument packing ends in UNREACHABLE exactly when the shorty declares a
    parameter, whatever the parameter is; it never fails in another way. *)
Lemma InitRegistersForInvokeStub_unreachable_iff (cs : CodeSimulatorArm64)
  (method : ArtMethod) (args args_size_in_bytes self result : Z) (shorty : CString)
  (isStatic : bool) :
  (has_parameter (c_chars shorty) = true ->
   InitRegistersForInvokeStub cs method args args_size_in_bytes self result shorty isStatic
   = Fatal Unreachable) /\
  (has_parameter (c_chars shorty) = false ->
   exists cs', InitRegistersForInvokeStub cs method args args_size_in_bytes self result
                 shorty isStatic = Ok cs').
Proof.
  unfold has_parameter, InitRegistersForInvokeStub.
  destruct (skip_char (c_chars shorty)) as [| c rest] eqn:Hparams.
  - split; [discriminate | intros _].
    destruct isStatic; cbn [negb bind FillRegisters]; eexists; reflexivity.
  - split; intros Hc.
    + assert (c <> zero).
      { destruct (Ascii.eqb_spec c zero); [discriminate Hc | assumption]. }
      destruct isStatic; cbv beta iota zeta delta [negb];
        rewrite FillRegisters_first_parameter by (assumption || reflexivity);
        reflexivity.
    + assert (E : Ascii.eqb c zero = true) by (destruct (Ascii.eqb c zero); [reflexivity | discriminate Hc]).
      destruct isStatic; cbv beta iota zeta delta [negb];
        rewrite (FillRegisters_no_parameter _ (String c rest)) by exact E;
        cbn [bind]; eexists; reflexivity.
Qed.

End Marshaller.

(** C1: a static call of signature "VI" uses one integer register and no
    floating-point register, well within eight per class, and argument
    packing still ends in UNREACHABLE: after the first parameter the
    floating-point cursor is tested for being below the limit. *)
Theorem C1_within_budget_call_hits_unreachable :
  forall (world : Collaborators) (cs : CodeSimulatorArm64) (method : ArtMethod)
         (args args_size_in_bytes self result shorty_ptr : Z),
    gpr_params "I" = 1 /\ fpr_params "I" = 0 /\
    InitRegistersForInvokeStub cs method args args_size_in_bytes self result
      (mkCString shorty_ptr "VI") true = Fatal Unreachable.
Proof.
  intros. split; [reflexivity | split; [reflexivity |]].
  apply InitRegistersForInvokeStub_unreachable_iff. reflexivity.
Qed.

(** C2: a static call of signature "VJ" whose argument buffer holds the long
    42 has one integer-class parameter and should leave 42 in x1; argument
    packing produces no packed state at all, it ends in UNREACHABLE. *)
Theorem C2_long_parameter_is_never_packed :
  forall (world : Collaborators) (cs : CodeSimulatorArm64) (method : ArtMethod)
         (args args_size_in_bytes self result shorty_ptr : Z),
    gpr_params "J" = 1 /\ fpr_params "J" = 0 /\
    forall cs' : CodeSimulatorArm64,
      InitRegistersForInvokeStub cs method args args_size_in_bytes self result
        (mkCString shorty_ptr "VJ") true <> Ok cs'.
Proof.
  intros. split; [reflexivity | split; [reflexivity |]].
  intros cs' H.
  rewrite (proj1 (InitRegistersForInvokeStub_unreachable_iff cs method args
                    args_size_in_bytes self result (mkCString shorty_ptr "VJ") true))
    in H by reflexivity.
  discriminate H.
Qed.

(** ** Register writes and the stack pointer *)

Lemma get_sp_WriteRegister_zero_mode (s : CustomSimulator) (code v : Z) :
  get_sp (WriteRegister s code v Reg31IsZeroRegister) = get_sp s.
Proof.
  unfold get_sp, ReadRegister, WriteRegister, kSp.
  destruct (Z.eqb_spec code 31) as [E | Hne]; [reflexivity |].
  cbn [with_state state_ registers_].
  destruct (Z.eqb_spec 31 code); [congruence | reflexivity].
Qed.

Lemma get_sp_WriteXRegister (s : CustomSimulator) (code v : Z) :
  get_sp (WriteXRegister s code v) = get_sp s.
Proof. apply get_sp_WriteRegister_zero_mode. Qed.

Lemma get_sp_WriteWRegister (s : CustomSimulator) (code v : Z) :
  get_sp (WriteWRegister s code v) = get_sp s.
Proof. apply get_sp_WriteRegister_zero_mode. Qed.

Lemma get_sp_WriteSp (s : CustomSimulator) (v : Z) : get_sp (WriteSp s v) = wrap64 v.
Proof.
  unfold get_sp, WriteSp, ReadRegister, WriteRegister, kSp. cbn. apply wrap64_idem.
Qed.

Lemma get_sp_wrapped (s : CustomSimulator) : wrap64 (get_sp s) = get_sp s.
Proof. apply wrap64_idem. Qed.

Lemma memory_WriteRegister (s : CustomSimulator) (code v : Z) (mode : Reg31Mode) :
  memory_ (WriteRegister s code v mode) = memory_ s.
Proof. unfold WriteRegister. destruct mode; [| destruct (code =? 31)]; reflexivity. Qed.

(** ** The facade *)

Section Facade.
Context {world : Collaborators}.

(** Packing records the stack pointer it found. *)
Lemma InitRegistersForInvokeStub_saved_sp (cs cs1 : CodeSimulatorArm64) (method : ArtMethod)
  (args args_size_in_bytes self result : Z) (shorty : CString) (isStatic : bool) :
  InitRegistersForInvokeStub cs method args args_size_in_bytes self result shorty isStatic
    = Ok cs1 ->
  saved_sp_ cs1 = get_sp (simulator_ cs).
Proof.
  unfold InitRegistersForInvokeStub. intros H.
  destruct isStatic; cbv beta iota zeta delta [negb] in H;
    match type of H with
    | bind ?fill _ = _ => destruct fill as [s' | why]
    end; cbn [bind] in H; try discriminate H;
    injection H as <-; cbn [saved_sp_];
    rewrite !get_sp_WriteXRegister; reflexivity.
Qed.

(** C5: when [Invoke] returns, the simulated stack pointer is the one the
    simulator had when [Invoke] was entered, which is also the value kept in
    [saved_sp_]; every other general register, the vector registers, the
    program counter and the flags are those of the clean state. *)
Theorem C5_invoke_restores_sp_and_resets_state :
  forall (cs cs' : CodeSimulatorArm64) (method : ArtMethod)
         (args args_size_in_bytes self result : Z) (shorty : CString) (isStatic : bool),
    Invoke cs method args args_size_in_bytes self result shorty isStatic = Ok cs' ->
    get_sp (simulator_ cs') = get_sp (simulator_ cs) /\
    saved_sp_ cs' = get_sp (simulator_ cs) /\
    (forall code, code <> kSp ->
       registers_ (state_ (simulator_ cs')) code = registers_ kCleanState code) /\
    vregisters_ (state_ (simulator_ cs')) = vregisters_ kCleanState /\
    pc_ (state_ (simulator_ cs')) = pc_ kCleanState /\
    nzcv_ (state_ (simulator_ cs')) = nzcv_ kCleanState /\
    fpcr_ (state_ (simulator_ cs')) = fpcr_ kCleanState.
Proof.
  intros cs cs' method args size self result shorty isStatic H.
  unfold Invoke in H.
  destruct (InitRegistersForInvokeStub cs method args size self result shorty isStatic)
    as [cs1 | why] eqn:Hinit; cbn [bind] in H; [| discriminate H].
  apply InitRegistersForInvokeStub_saved_sp in Hinit.
  destruct (GetQuickCodeFromArtMethod method) as [quick_code | why];
    cbn [bind] in H; [| discriminate H].
  unfold RunFrom in H.
  destruct (Simulator_RunFrom (simulator_ cs1) quick_code) as [s2 | why];
    cbn [bind saved_sp_] in H; [| discriminate H].
  injection H as <-. cbn [simulator_ saved_sp_].
  rewrite get_sp_WriteSp, Hinit, get_sp_wrapped.
  repeat split.
  intros code Hcode. unfold WriteSp, WriteRegister, ResetState. cbn.
  destruct (Z.eqb_spec code kSp); [contradiction | reflexivity].
Qed.

(** The lookup of compiled code passes a null address on: it fails only on
    its debug checks, never on the absence of code. *)
Lemma GetQuickCodeFromArtMethod_null (method : ArtMethod) :
  OatMethodQuickCode method = 0 ->
  (kIsDebugBuild = true ->
   IsAbstract method = false /\ IsNative method = false /\
   SimulatorMode = true /\ CanBeSimulated method = true) ->
  GetQuickCodeFromArtMethod method = Ok 0.
Proof.
  intros Hnull Hchecks. unfold GetQuickCodeFromArtMethod, DCHECK.
  rewrite Hnull.
  destruct kIsDebugBuild; cbn; [| reflexivity].
  destruct (Hchecks eq_refl) as (-> & -> & -> & ->). reflexivity.
Qed.

(** C6, as the code has it: for a method without compiled code the lookup
    returns the null address and [Invoke], having packed the arguments, runs
    the simulator from address 0; whenever that run returns, [Invoke] returns
    too, with the result extracted, the state reset and the stack pointer
    restored. *)
Theorem C6_missing_code_runs_from_null :
  forall (cs cs1 : CodeSimulatorArm64) (s2 : CustomSimulator) (method : ArtMethod)
         (args args_size_in_bytes self result : Z) (shorty : CString) (isStatic : bool),
    OatMethodQuickCode method = 0 ->
    (kIsDebugBuild = true ->
     IsAbstract method = false /\ IsNative method = false /\
     SimulatorMode = true /\ CanBeSimulated method = true) ->
    InitRegistersForInvokeStub cs method args args_size_in_bytes self result shorty isStatic
      = Ok cs1 ->
    Simulator_RunFrom (simulator_ cs1) 0 = Ok s2 ->
    GetQuickCodeFromArtMethod method = Ok 0 /\
    Invoke cs method args args_size_in_bytes self result shorty isStatic
      = Ok (mkCodeSimulatorArm64
              (WriteSp (ResetState (GetResultFromShorty s2 result shorty)) (saved_sp_ cs1))
              (saved_sp_ cs1)).
Proof.
  intros cs cs1 s2 method args size self result shorty isStatic Hnull Hchecks Hinit Hrun.
  pose proof (GetQuickCodeFromArtMethod_null method Hnull Hchecks) as Hcode.
  split; [exact Hcode |].
  unfold Invoke, RunFrom. rewrite Hinit. cbn [bind].
  rewrite Hcode. cbn [bind]. rewrite Hrun. reflexivity.
Qed.

(** [Invoke] does return: for a shorty without parameters, a method that
    passes the lookup, and a simulator run that comes back. *)
Lemma Invoke_returns (cs : CodeSimulatorArm64) (method : ArtMethod)
  (args args_size_in_bytes self result quick_code : Z) (shorty : CString) (isStatic : bool) :
  has_parameter (c_chars shorty) = false ->
  GetQuickCodeFromArtMethod method = Ok quick_code ->
  (forall s, exists s2, Simulator_RunFrom s quick_code = Ok s2) ->
  exists cs', Invoke cs method args args_size_in_bytes self result shorty isStatic = Ok cs'.
Proof.
  intros Hparams Hcode Hrun. unfold Invoke, RunFrom.
  destruct (proj2 (InitRegistersForInvokeStub_unreachable_iff cs method args
                     args_size_in_bytes self result shorty isStatic) Hparams)
    as [cs1 Hinit].
  rewrite Hinit. cbn [bind]. rewrite Hcode. cbn [bind].
  destruct (Hrun (simulator_ cs1)) as [s2 Hs2]. rewrite Hs2. cbn [bind].
  eexists. reflexivity.
Qed.

End Facade.

(** A static call of signature "I": [Invoke] returns, and on return the
    stack pointer is back at 0x10000. *)
Lemma C5_witness :
  exists cs' : CodeSimulatorArm64,
    @Invoke demo_world demo_code_simulator demo_method 0x2000 0 demo_self demo_result
      (mkCString 0x3100 "I") true = Ok cs' /\
    get_sp (simulator_ cs') = 0x10000 /\ saved_sp_ cs' = 0x10000.
Proof.
  destruct (@Invoke_returns demo_world demo_code_simulator demo_method 0x2000 0 demo_self
              demo_result 0x4000 (mkCString 0x3100 "I") true eq_refl eq_refl
              (fun s => ex_intro _ _ eq_refl)) as [cs' H].
  exists cs'. split; [exact H |].
  destruct (@C5_invoke_restores_sp_and_resets_state demo_world _ _ _ _ _ _ _ _ _ H)
    as (Hsp & Hsaved & _).
  split; [exact Hsp | exact Hsaved].
Defined.

(** C6, as stated, fails: a method whose metadata reports no compiled code
    is invoked, and [Invoke] does not end fatally. *)
Lemma C6_counterexample :
  OatMethodQuickCode demo_method_without_code = 0 /\
  forall why : Abort,
    @Invoke demo_world demo_code_simulator demo_method_without_code 0x2000 0 demo_self
      demo_result (mkCString 0x3100 "V") true <> Fatal why.
Proof.
  split; [reflexivity |].
  intros why H.
  destruct (@Invoke_returns demo_world demo_code_simulator demo_method_without_code
              0x2000 0 demo_self demo_result 0 (mkCString 0x3100 "V") true eq_refl eq_refl
              (fun s => ex_intro _ _ eq_refl)) as [cs' Hok].
  rewrite Hok in H. discriminate H.
Qed.

(** The same call, followed through: the run starts at address 0 and
    [Invoke] returns. *)
Lemma C6_witness :
  exists cs' : CodeSimulatorArm64,
    @Invoke demo_world demo_code_simulator demo_method_without_code 0x2000 0 demo_self
      demo_result (mkCString 0x3100 "V") true = Ok cs'.
Proof.
  destruct (proj2 (@InitRegistersForInvokeStub_unreachable_iff demo_world
                     demo_code_simulator demo_method_without_code 0x2000 0 demo_self
                     demo_result (mkCString 0x3100 "V") true) eq_refl) as [cs1 Hinit].
  eexists.
  apply (proj2 (@C6_missing_code_runs_from_null demo_world demo_code_simulator cs1
                  (WriteXRegister (WritePc (simulator_ cs1) 0) 0 0x123456789)
                  demo_method_without_code 0x2000 0 demo_self demo_result
                  (mkCString 0x3100 "V") true eq_refl
                  (fun _ => conj eq_refl (conj eq_refl (conj eq_refl eq_refl)))
                  Hinit eq_refl)).
Defined.

(** ** Argument packing: the stack frame *)

Lemma align16_spec (w : Z) :
  0 <= w < 2 ^ 64 -> Z.land w 0xFFFFFFFFFFFFFFF0 = w - w mod 16.
Proof.
  intros Hw.
  assert (Hdisjoint : Z.land (Z.land w 0xFFFFFFFFFFFFFFF0) (Z.land w 15) = 0).
  { rewrite <- Z.land_assoc, (Z.land_comm w 15), (Z.land_assoc 0xFFFFFFFFFFFFFFF0 15 w).
    change (Z.land 0xFFFFFFFFFFFFFFF0 15) with 0.
    now rewrite Z.land_0_l, Z.land_0_r. }
  assert (Hcover : Z.lor (Z.land w 0xFFFFFFFFFFFFFFF0) (Z.land w 15) = w).
  { rewrite <- Z.land_lor_distr_r.
    change (Z.lor 0xFFFFFFFFFFFFFFF0 15) with (Z.ones 64).
    rewrite Z.land_ones by lia. apply Z.mod_small. exact Hw. }
  pose proof (Z.add_lor_land (Z.land w 0xFFFFFFFFFFFFFFF0) (Z.land w 15)) as Hsum.
  rewrite Hdisjoint, Hcover in Hsum.
  change 15 with (Z.ones 4) in Hsum. rewrite Z.land_ones in Hsum by lia.
  change (2 ^ 4) with 16 in Hsum. lia.
Qed.

(** The new stack pointer is a multiple of 16 and, when the frame fits under
    the old stack pointer, lies at least a whole frame below it. *)
Lemma new_sp_aligned_below (saved_sp frame_save_size : Z) :
  0 <= frame_save_size <= saved_sp -> saved_sp < 2 ^ 64 ->
  let new_sp := Z.land (wrap64 (saved_sp - frame_save_size)) 0xFFFFFFFFFFFFFFF0 in
  new_sp mod 16 = 0 /\ 0 <= new_sp /\
  saved_sp - frame_save_size - 15 <= new_sp <= saved_sp - frame_save_size.
Proof.
  intros Hsize Hsp new_sp. subst new_sp.
  assert (Hw : wrap64 (saved_sp - frame_save_size) = saved_sp - frame_save_size)
    by (unfold wrap64; apply Z.mod_small; lia).
  rewrite Hw, align16_spec by lia.
  pose proof (Z.mod_pos_bound (saved_sp - frame_save_size) 16 ltac:(lia)) as Hm.
  pose proof (Z.div_mod (saved_sp - frame_save_size) 16 ltac:(lia)) as Hd.
  repeat split; try lia.
  replace (saved_sp - frame_save_size - (saved_sp - frame_save_size) mod 16)
    with ((saved_sp - frame_save_size) / 16 * 16) by lia.
  apply Z.mod_mul. lia.
Qed.

Lemma store64_other (m : Memory) (a v x : Z) :
  x < a \/ a + 8 <= x -> store64 m a v x = m x.
Proof. intros H. unfold store64. apply store_le_other. lia. Qed.

Lemma memcpy_other (m : Memory) (dst src n x : Z) :
  x < dst \/ dst + n <= x -> memcpy m dst src n x = m x.
Proof.
  intros H. unfold memcpy.
  destruct (Z.leb_spec dst x); destruct (Z.ltb_spec x (dst + n)); cbn; try reflexivity; lia.
Qed.

Lemma load64_store64_other (m : Memory) (a b v : Z) :
  a + 8 <= b \/ b + 8 <= a -> load64 (store64 m b v) a = load64 m a.
Proof.
  intros H. unfold load64. apply load_le_ext.
  intros x Hx. apply store64_other. lia.
Qed.

Lemma load64_memcpy_other (m : Memory) (a dst src n : Z) :
  a + 8 <= dst \/ dst + n <= a -> load64 (memcpy m dst src n) a = load64 m a.
Proof.
  intros H. unfold load64. apply load_le_ext.
  intros x Hx. apply memcpy_other. lia.
Qed.

Lemma load64_store64_at (m : Memory) (a b v : Z) :
  a = b -> load64 (store64 m b v) a = wrap64 v.
Proof. intros ->. apply load64_store64. Qed.

Lemma ReadRegister_WriteRegister_other (s : CustomSimulator) (code code' v : Z)
  (mode mode' : Reg31Mode) :
  code' <> code ->
  ReadRegister (WriteRegister s code v mode) code' mode' = ReadRegister s code' mode'.
Proof.
  intros Hne. unfold ReadRegister, WriteRegister.
  destruct mode; [| destruct (code =? 31); [reflexivity |]];
    cbn [with_state state_ registers_];
    (destruct (Z.eqb_spec code' code); [contradiction |]); reflexivity.
Qed.

Lemma get_x_WriteXRegister_same (s : CustomSimulator) (code v : Z) :
  code <> 31 -> get_x (WriteXRegister s code v) code = wrap64 v.
Proof.
  intros Hne. unfold get_x, WriteXRegister, ReadRegister, WriteRegister.
  destruct (Z.eqb_spec code 31); [contradiction |].
  cbn [with_state state_ registers_]. rewrite Z.eqb_refl. apply wrap64_idem.
Qed.

Lemma memory_WriteXRegister (s : CustomSimulator) (code v : Z) :
  memory_ (WriteXRegister s code v) = memory_ s.
Proof. apply memory_WriteRegister. Qed.

Lemma memory_WriteWRegister (s : CustomSimulator) (code v : Z) :
  memory_ (WriteWRegister s code v) = memory_ s.
Proof. apply memory_WriteRegister. Qed.

Lemma memory_WriteSp (s : CustomSimulator) (v : Z) : memory_ (WriteSp s v) = memory_ s.
Proof. apply memory_WriteRegister. Qed.

Lemma get_sp_with_memory (s : CustomSimulator) (m : Memory) :
  get_sp (with_memory s m) = get_sp s.
Proof. reflexivity. Qed.

Lemma memory_marking (s : CustomSimulator) (b : bool) (code v : Z) :
  memory_ (if b then WriteWRegister s code v else s) = memory_ s.
Proof. destruct b; [apply memory_WriteRegister | reflexivity]. Qed.

Lemma get_sp_marking (s : CustomSimulator) (b : bool) (code v : Z) :
  get_sp (if b then WriteWRegister s code v else s) = get_sp s.
Proof. destruct b; [apply get_sp_WriteWRegister | reflexivity]. Qed.

(** What packing finds in the registers when it saves them: the four pointer
    registers it has just set, the new stack pointer, and everything else as
    it was on entry. *)
Lemma ReadRegister_at_save (s : CustomSimulator) (method self result shorty new_sp code : Z)
  (mode : Reg31Mode) :
  code <> 0 -> code <> kSelf -> code <> 4 -> code <> 5 -> code <> kSp ->
  ReadRegister
    (WriteSp (WriteXRegister (WriteXRegister (WriteXRegister (WriteXRegister
       s 0 method) kSelf self) 4 result) 5 shorty) new_sp) code mode
  = ReadRegister s code mode.
Proof.
  intros H0 H19 H4 H5 H31. unfold WriteSp, WriteXRegister.
  rewrite !ReadRegister_WriteRegister_other by assumption. reflexivity.
Qed.

Lemma get_x_at_save (s : CustomSimulator) (method self result shorty new_sp : Z) :
  let s5 := WriteSp (WriteXRegister (WriteXRegister (WriteXRegister (WriteXRegister
              s 0 method) kSelf self) 4 result) 5 shorty) new_sp in
  get_x s5 4 = wrap64 result /\ get_x s5 5 = wrap64 shorty /\ get_x s5 kSelf = wrap64 self.
Proof.
  cbv zeta. unfold get_x, WriteSp, WriteXRegister, kSelf, kSp.
  repeat split.
  - rewrite !ReadRegister_WriteRegister_other by lia.
    apply (get_x_WriteXRegister_same _ 4). lia.
  - rewrite !ReadRegister_WriteRegister_other by lia.
    apply (get_x_WriteXRegister_same _ 5). lia.
  - rewrite !ReadRegister_WriteRegister_other by lia.
    apply (get_x_WriteXRegister_same _ 19). lia.
Qed.

Section FrameLayout.
Context {world : Collaborators}.

(** The register-filling loop touches neither memory nor the stack pointer. *)
Lemma FillRegisters_frame (params : string) :
  forall (s s' : CustomSimulator) (args gpr_index fpr_index : Z),
    FillRegisters s params args gpr_index fpr_index = Ok s' ->
    memory_ s' = memory_ s /\ get_sp s' = get_sp s.
Proof.
  induction params as [| c rest IH]; intros s s' args gpr fpr H; cbn [FillRegisters] in H.
  - injection H as <-. split; reflexivity.
  - destruct (Ascii.eqb c zero); [injection H as <-; split; reflexivity |].
    destruct (Ascii.eqb c "D"); [| destruct (Ascii.eqb c "J"); [| destruct (Ascii.eqb c "F")]];
      match type of H with
      | (if ?check then _ else _) = _ => destruct check; [discriminate H |]
      end;
      apply IH in H; destruct H as [Hm Hsp]; rewrite Hm, Hsp; split;
      first [ apply memory_WriteRegister | apply get_sp_WriteRegister_zero_mode
            | reflexivity ].
Qed.

(** Where packing puts things, for every call it completes.  With [sp0] the
    stack pointer on entry and [new_sp] the one it sets: the fifteen saved
    values are at [sp0 + 24], [sp0 + 32], ... [sp0 + 136]; below [sp0 + 24]
    only the null slot at [new_sp] and the bytes copied right after it are
    written. *)
Lemma InitRegistersForInvokeStub_layout (cs cs1 : CodeSimulatorArm64) (method : ArtMethod)
  (args args_size_in_bytes self result : Z) (shorty : CString) (isStatic : bool) :
  0 <= args_size_in_bytes ->
  InitRegistersForInvokeStub cs method args args_size_in_bytes self result shorty isStatic
    = Ok cs1 ->
  let sp0 := get_sp (simulator_ cs) in
  let new_sp := Z.land (wrap64 (sp0 - (kXRegSizeInBytes * 15 + kXRegSizeInBytes
                                       + args_size_in_bytes)))
                       0xFFFFFFFFFFFFFFF0 in
  let m1 := memory_ (simulator_ cs1) in
  get_sp (simulator_ cs1) = wrap64 new_sp /\
  (forall x, x < sp0 + 24 -> x < new_sp \/ new_sp + 8 + 4 * args_size_in_bytes <= x ->
             m1 x = memory_ (simulator_ cs) x) /\
  (new_sp + 8 <= sp0 + 24 -> load64 m1 new_sp = 0) /\
  load64 m1 (sp0 + 24) = get_fp (simulator_ cs) /\
  load64 m1 (sp0 + 32) = get_lr (simulator_ cs) /\
  load64 m1 (sp0 + 40) = wrap64 result /\
  load64 m1 (sp0 + 48) = wrap64 (c_ptr shorty) /\
  load64 m1 (sp0 + 56) = sp0 /\
  load64 m1 (sp0 + 64) = wrap64 self /\
  (forall i, In i [6; 7; 8; 9; 10; 11; 12; 13; 14] ->
             load64 m1 (sp0 + 24 + 8 * i) = get_x (simulator_ cs) (i + 14)).
Proof.
  intros Hsize H sp0 new_sp m1. subst m1.
  unfold InitRegistersForInvokeStub in H.
  destruct isStatic; cbv beta iota zeta delta [negb] in H;
    match type of H with
    | bind ?fill _ = _ => destruct fill as [s' | why] eqn:Hfill
    end; cbn [bind] in H; try discriminate H;
    injection H as <-; apply FillRegisters_frame in Hfill; destruct Hfill as [Hm Hsp];
    cbn [simulator_]; rewrite memory_marking, get_sp_marking, Hm, Hsp;
    clear Hm Hsp;
    rewrite ?memory_WriteWRegister, ?get_sp_WriteWRegister;
    rewrite memory_WriteXRegister, get_sp_WriteXRegister, get_sp_with_memory;
    cbn [with_memory memory_];
    rewrite !memory_WriteSp, !memory_WriteXRegister;
    rewrite !get_sp_WriteXRegister; fold sp0; fold new_sp.
  all: set (s5 := WriteSp _ new_sp).
  all: assert (Hfp : get_fp s5 = get_fp (simulator_ cs))
    by (apply ReadRegister_at_save; unfold kFp, kSelf, kSp; lia).
  all: assert (Hlr : get_lr s5 = get_lr (simulator_ cs))
    by (apply ReadRegister_at_save; unfold kLinkRegCode, kSelf, kSp; lia).
  all: destruct (get_x_at_save (simulator_ cs) (method_ptr method) self result
                   (c_ptr shorty) new_sp) as (Hx4 & Hx5 & Hx19); fold s5 in Hx4, Hx5, Hx19.
  all: assert (Hcallee : forall i, 6 <= i <= 14 ->
                                   get_x s5 (i + 14) = get_x (simulator_ cs) (i + 14))
    by (intros i Hi; apply ReadRegister_at_save; unfold kSelf, kSp; lia).
  all: rewrite Hfp, Hlr, Hx4, Hx5, Hx19; cbn [save_callee_saved];
    rewrite !Hcallee by lia.
  all: split; [apply get_sp_WriteSp |]; clearbody s5.
  all: split;
    [ intros x Hx Hout; rewrite !store64_other by lia;
      rewrite memcpy_other by lia; rewrite store64_other by lia; reflexivity |].
  all: split;
    [ intros Hfit; rewrite !load64_store64_other by lia;
      rewrite load64_memcpy_other by lia; rewrite load64_store64_at by lia;
      reflexivity |].
  all: repeat (split;
    [ rewrite ?load64_store64_other by lia; rewrite load64_store64_at by lia;
      first [ apply ReadXRegister_wrapped | apply get_sp_wrapped | apply wrap64_idem ] |]).
  all: intros i Hi; cbn [In] in Hi;
    repeat (destruct Hi as [<- | Hi];
      [ rewrite ?load64_store64_other by lia; rewrite load64_store64_at by lia;
        apply wrap64_idem |]);
    contradiction.
Qed.

End FrameLayout.

(** C7: a static call of signature "V" with the stack pointer at 0x10000.
    The new stack pointer is 0xFF80, sixteen-byte aligned and below the old
    one, with a null method pointer stored at it, as the frame diagram has
    it.  The saved record is not in that frame: the frame pointer, link
    register, result pointer, shorty pointer, previous stack pointer, self
    pointer and x20..x28 are stored at 0x10018 .. 0x10088, at and above the
    previous stack pointer, while every byte between the null slot and the
    previous stack pointer is left as it was. *)
Theorem C7_saved_record_is_written_above_previous_sp :
  exists cs1 : CodeSimulatorArm64,
    @InitRegistersForInvokeStub demo_world demo_code_simulator demo_method 0x2000 0
      demo_self demo_result (mkCString 0x3100 "V") true = Ok cs1 /\
    get_sp (simulator_ demo_code_simulator) = 0x10000 /\
    get_sp (simulator_ cs1) = 0xFF80 /\
    load64 (memory_ (simulator_ cs1)) 0xFF80 = 0 /\
    map (load64 (memory_ (simulator_ cs1)))
        [0x10018; 0x10020; 0x10028; 0x10030; 0x10038; 0x10040]
      = [0x1111; 0x2222; 0x3000; 0x3100; 0x10000; 0x7000] /\
    map (load64 (memory_ (simulator_ cs1)))
        [0x10048; 0x10050; 0x10058; 0x10060; 0x10068; 0x10070; 0x10078; 0x10080; 0x10088]
      = [0xC14; 0xC15; 0xC16; 0xC17; 0xC18; 0xC19; 0xC1A; 0xC1B; 0xC1C] /\
    (forall x, 0xFF88 <= x < 0x10000 ->
               memory_ (simulator_ cs1) x = memory_ (simulator_ demo_code_simulator) x).
Proof.
  destruct (proj2 (@InitRegistersForInvokeStub_unreachable_iff demo_world
                     demo_code_simulator demo_method 0x2000 0 demo_self demo_result
                     (mkCString 0x3100 "V") true) eq_refl) as [cs1 Hinit].
  exists cs1. split; [exact Hinit |].
  destruct (@InitRegistersForInvokeStub_layout demo_world _ _ _ _ _ _ _ _ _
              (Z.le_refl 0) Hinit)
    as (Hsp & Hframe & Hnull & Hfp & Hlr & Hresult & Hshorty & Hprev & Hself & Hcallee).
  split; [reflexivity |].
  split; [exact Hsp |].
  split; [apply Hnull; intro Hcmp; discriminate Hcmp |].
  pose (m1 := memory_ (simulator_ cs1)). fold m1.
  split.
  { cbn [map].
    rewrite (Hfp : load64 m1 0x10018 = 0x1111), (Hlr : load64 m1 0x10020 = 0x2222),
      (Hresult : load64 m1 0x10028 = 0x3000), (Hshorty : load64 m1 0x10030 = 0x3100),
      (Hprev : load64 m1 0x10038 = 0x10000), (Hself : load64 m1 0x10040 = 0x7000).
    reflexivity. }
  split.
  { assert (Hin : forall i, 6 <= i <= 14 -> In i [6; 7; 8; 9; 10; 11; 12; 13; 14])
      by (intros i Hi; cbn; lia).
    cbn [map].
    rewrite (Hcallee 6 (Hin 6 ltac:(lia)) : load64 m1 0x10048 = 0xC14),
      (Hcallee 7 (Hin 7 ltac:(lia)) : load64 m1 0x10050 = 0xC15),
      (Hcallee 8 (Hin 8 ltac:(lia)) : load64 m1 0x10058 = 0xC16),
      (Hcallee 9 (Hin 9 ltac:(lia)) : load64 m1 0x10060 = 0xC17),
      (Hcallee 10 (Hin 10 ltac:(lia)) : load64 m1 0x10068 = 0xC18),
      (Hcallee 11 (Hin 11 ltac:(lia)) : load64 m1 0x10070 = 0xC19),
      (Hcallee 12 (Hin 12 ltac:(lia)) : load64 m1 0x10078 = 0xC1A),
      (Hcallee 13 (Hin 13 ltac:(lia)) : load64 m1 0x10080 = 0xC1B),
      (Hcallee 14 (Hin 14 ltac:(lia)) : load64 m1 0x10088 = 0xC1C).
    reflexivity. }
  intros x Hx. apply Hframe.
  - change (x < 0x10018). lia.
  - right. change (0xFF88 <= x). lia.
Qed.

(** ** Argument packing: the receiver *)

Lemma load_le_range (n : nat) :
  forall (m : Memory) (a : Z), 0 <= load_le n m a < 256 ^ Z.of_nat n.
Proof.
  induction n as [| k IH]; intros m a.
  - cbn. lia.
  - cbn [load_le]. rewrite Nat2Z.inj_succ, Z.pow_succ_r by lia.
    pose proof (IH m (a + 1)) as Hk.
    pose proof (Z.mod_pos_bound (m a) 256 ltac:(lia)) as Hb.
    nia.
Qed.

Lemma load32_wrapped (m : Memory) (a : Z) : wrap32 (load32 m a) = load32 m a.
Proof.
  unfold wrap32, load32. apply Z.mod_small.
  pose proof (load_le_range 4 m a) as H.
  change (256 ^ Z.of_nat 4) with (2 ^ 32) in H. exact H.
Qed.

Lemma ReadXRegister_WriteWRegister_same (s : CustomSimulator) (code v : Z) :
  code <> 31 -> ReadXRegister (WriteWRegister s code v) code = wrap32 v.
Proof.
  intros Hne. unfold ReadXRegister, WriteWRegister, ReadRegister, WriteRegister.
  destruct (Z.eqb_spec code 31); [contradiction |].
  cbn [with_state state_ registers_]. rewrite Z.eqb_refl.
  unfold wrap64. apply Z.mod_small.
  pose proof (wrap32_range v). lia.
Qed.

Section Receiver.
Context {world : Collaborators}.

(** An instance call that is packed leaves the first word of the argument
    buffer, the "this" reference, zero-extended in x1. *)
Lemma InitRegistersForInvokeStub_this (cs cs1 : CodeSimulatorArm64) (method : ArtMethod)
  (args args_size_in_bytes self result : Z) (shorty : CString) :
  InitRegistersForInvokeStub cs method args args_size_in_bytes self result shorty false
    = Ok cs1 ->
  ReadXRegister (simulator_ cs1) 1 = load32 (memory_ (simulator_ cs1)) args.
Proof.
  intros H.
  destruct (has_parameter (c_chars shorty)) eqn:Hparams.
  { rewrite (proj1 (InitRegistersForInvokeStub_unreachable_iff cs method args
                      args_size_in_bytes self result shorty false) Hparams) in H.
    discriminate H. }
  unfold InitRegistersForInvokeStub in H. cbv beta iota zeta delta [negb] in H.
  unfold has_parameter in Hparams.
  assert (Hnone : match skip_char (c_chars shorty) with
                  | EmptyString => true
                  | String c _ => Ascii.eqb c zero
                  end = true).
  { destruct (skip_char (c_chars shorty)) as [| c rest]; [reflexivity |].
    destruct (Ascii.eqb c zero); [reflexivity | discriminate Hparams]. }
  rewrite (FillRegisters_no_parameter _ _ _ _ _ Hnone) in H.
  cbn [bind] in H. injection H as <-. cbn [simulator_].
  rewrite memory_marking, memory_WriteWRegister.
  assert (Hread : forall (s : CustomSimulator) (b : bool) (v : Z),
             ReadXRegister (if b then WriteWRegister s kMR v else s) 1 = ReadXRegister s 1).
  { intros s b v. destruct b; [| reflexivity].
    apply ReadRegister_WriteRegister_other. unfold kMR. lia. }
  rewrite Hread, ReadXRegister_WriteWRegister_same by lia.
  apply load32_wrapped.
Qed.

(** The steps behind a returning [Invoke]. *)
Lemma Invoke_inversion (cs cs' : CodeSimulatorArm64) (method : ArtMethod)
  (args args_size_in_bytes self result : Z) (shorty : CString) (isStatic : bool) :
  Invoke cs method args args_size_in_bytes self result shorty isStatic = Ok cs' ->
  exists (cs1 : CodeSimulatorArm64) (quick_code : Z) (s2 : CustomSimulator),
    InitRegistersForInvokeStub cs method args args_size_in_bytes self result shorty isStatic
      = Ok cs1 /\
    GetQuickCodeFromArtMethod method = Ok quick_code /\
    Simulator_RunFrom (simulator_ cs1) quick_code = Ok s2 /\
    cs' = mkCodeSimulatorArm64
            (WriteSp (ResetState (GetResultFromShorty s2 result shorty)) (saved_sp_ cs1))
            (saved_sp_ cs1).
Proof.
  intros H. unfold Invoke, RunFrom in H.
  destruct (InitRegistersForInvokeStub cs method args args_size_in_bytes self result
              shorty isStatic) as [cs1 | why]; cbn [bind] in H; [| discriminate H].
  destruct (GetQuickCodeFromArtMethod method) as [quick_code | why];
    cbn [bind] in H; [| discriminate H].
  destruct (Simulator_RunFrom (simulator_ cs1) quick_code) as [s2 | why] eqn:Hrun;
    cbn [bind saved_sp_] in H; [| discriminate H].
  injection H as <-. exists cs1, quick_code, s2. repeat split. exact Hrun.
Qed.

End Receiver.

(** End to end: a static method of signature "I" whose simulated code
    leaves 0x123456789 in x0.  [Invoke] returns and the result slot holds
    that value. *)
Example Invoke_static_int_method :
  exists cs' : CodeSimulatorArm64,
    @Invoke demo_world demo_code_simulator demo_method 0x2000 0 demo_self demo_result
      (mkCString 0x3100 "I") true = Ok cs' /\
    load64 (memory_ (simulator_ cs')) demo_result = 0x123456789.
Proof.
  destruct (@Invoke_returns demo_world demo_code_simulator demo_method 0x2000 0 demo_self
              demo_result 0x4000 (mkCString 0x3100 "I") true eq_refl eq_refl
              (fun s => ex_intro _ _ eq_refl)) as [cs' H].
  exists cs'. split; [exact H |].
  destruct (@Invoke_inversion demo_world _ _ _ _ _ _ _ _ _ H)
    as (cs1 & quick_code & s2 & _ & _ & Hrun & ->).
  injection Hrun as <-.
  cbn [simulator_]. unfold WriteSp. rewrite memory_WriteRegister.
  unfold ResetState, with_state. cbn [memory_].
  rewrite GetResultFromShorty_default by (intro E; discriminate E).
  unfold SetJ, with_memory. cbn [memory_].
  rewrite load64_store64. reflexivity.
Qed.

(** * Further properties *)

(** ** The interceptor and its table *)

Section InterceptorExtras.
Context {world : Collaborators}.

(** X1: interception goes by branch form.  A BR is diverted for the suspend
    check only, so a BR to any other address, the allocation services
    included, is executed by the base simulator; a BLR is diverted for the
    allocation services only, so a BLR to the suspend check is executed by
    the base simulator. *)
Theorem X1_interception_is_per_branch_form :
  forall (s : CustomSimulator) (instr : Instruction) (q : QuickEntryPoints),
    qpoints_ s = Some q ->
    (Mask s instr UnconditionalBranchToRegisterMask = BR ->
     ReadXRegister s (GetRn s instr) <> pTestSuspend q ->
     VisitUnconditionalBranchToRegister s instr
     = Simulator_VisitUnconditionalBranchToRegister s instr) /\
    (Mask s instr UnconditionalBranchToRegisterMask = BLR ->
     BR <> BLR ->
     ~ In (ReadXRegister s (GetRn s instr)) (allocation_services q) ->
     VisitUnconditionalBranchToRegister s instr
     = Simulator_VisitUnconditionalBranchToRegister s instr).
Proof.
  intros s instr q Hq. split.
  - intros Hbr Htarget.
    unfold VisitUnconditionalBranchToRegister, deref_qpoints.
    rewrite Hq, DCHECK_true. cbn [bind].
    rewrite Hbr, Z.eqb_refl.
    destruct (Z.eqb_spec (ReadXRegister s (GetRn s instr)) (pTestSuspend q));
      [contradiction | reflexivity].
  - intros Hblr Hforms Habsent.
    unfold VisitUnconditionalBranchToRegister, deref_qpoints.
    rewrite Hq, DCHECK_true. cbn [bind].
    rewrite Hblr.
    destruct (Z.eqb_spec BLR BR) as [E | _]; [symmetry in E; contradiction |].
    rewrite Z.eqb_refl.
    unfold allocation_services in Habsent. cbn [In] in Habsent.
    repeat match goal with
           | |- context [?a =? ?b] =>
               destruct (Z.eqb_spec a b) as [E | _];
               [exfalso; apply Habsent; rewrite E; tauto |]
           end.
    reflexivity.
Qed.

(** X2: without an entry-point table.  In a debug build every visit stops at
    the DCHECK, whatever the instruction; in a release build an instruction
    that is neither BR nor BLR never looks at the table and is executed by
    the base simulator. *)
Theorem X2_visit_without_entry_points :
  forall (s : CustomSimulator) (instr : Instruction),
    qpoints_ s = None ->
    (kIsDebugBuild = true ->
     VisitUnconditionalBranchToRegister s instr = Fatal DCheckFailed) /\
    (kIsDebugBuild = false ->
     Mask s instr UnconditionalBranchToRegisterMask <> BR ->
     Mask s instr UnconditionalBranchToRegisterMask <> BLR ->
     VisitUnconditionalBranchToRegister s instr
     = Simulator_VisitUnconditionalBranchToRegister s instr).
Proof.
  intros s instr Hq. unfold VisitUnconditionalBranchToRegister, DCHECK.
  rewrite Hq. split.
  - intros ->. reflexivity.
  - intros -> Hbr Hblr. cbn [andb bind].
    apply Z.eqb_neq in Hbr, Hblr. rewrite Hbr, Hblr. reflexivity.
Qed.

Lemma InitEntryPoints_without_table (cs : CodeSimulatorArm64) (q : QuickEntryPoints) :
  qpoints_ (simulator_ cs) = None ->
  InitEntryPoints cs q
  = Ok (mkCodeSimulatorArm64
          (mkCustomSimulator (state_ (simulator_ cs)) (Some q)
                             (memory_ (simulator_ cs)) (calls_ (simulator_ cs)))
          (saved_sp_ cs)).
Proof.
  unfold InitEntryPoints, SetEntryPoints, DCHECK.
  intros ->. rewrite andb_false_r. reflexivity.
Qed.

(** X3: the entry-point table is installed once.  On a facade without a
    table [InitEntryPoints] succeeds in every build and changes nothing but
    the table; on a facade that has one it is fatal in a debug build and
    replaces the table in a release build. *)
Theorem X3_entry_points_are_installed_once :
  forall (cs : CodeSimulatorArm64) (q : QuickEntryPoints),
    (qpoints_ (simulator_ cs) = None ->
     InitEntryPoints cs q
     = Ok (mkCodeSimulatorArm64
             (mkCustomSimulator (state_ (simulator_ cs)) (Some q)
                                (memory_ (simulator_ cs)) (calls_ (simulator_ cs)))
             (saved_sp_ cs))) /\
    (qpoints_ (simulator_ cs) <> None ->
     InitEntryPoints cs q
     = if kIsDebugBuild then Fatal DCheckFailed
       else Ok (mkCodeSimulatorArm64
                  (mkCustomSimulator (state_ (simulator_ cs)) (Some q)
                                     (memory_ (simulator_ cs)) (calls_ (simulator_ cs)))
                  (saved_sp_ cs))).
Proof.
  intros cs q. split.
  - apply InitEntryPoints_without_table.
  - unfold InitEntryPoints, SetEntryPoints, DCHECK. intros Hset. destruct (qpoints_ (simulator_ cs)); [| contradiction].
    destruct kIsDebugBuild; reflexivity.
Qed.

(** X4: installing a table and branching.  After [InitEntryPoints] on a
    facade without a table, a BR whose target is the suspend check of the
    installed table is diverted: exactly one call, to that function, is added
    to the record and the program counter becomes the link-register value. *)
Theorem X4_installed_table_drives_the_interceptor :
  forall (cs cs' : CodeSimulatorArm64) (q : QuickEntryPoints) (instr : Instruction),
    qpoints_ (simulator_ cs) = None ->
    InitEntryPoints cs q = Ok cs' ->
    Mask (simulator_ cs') instr UnconditionalBranchToRegisterMask = BR ->
    ReadXRegister (simulator_ cs') (GetRn (simulator_ cs') instr) = pTestSuspend q ->
    exists s',
      VisitUnconditionalBranchToRegister (simulator_ cs') instr = Ok s' /\
      calls_ s' = mkRuntimeCall (pTestSuspend q) [] :: calls_ (simulator_ cs) /\
      pc_ (state_ s') = get_lr (simulator_ cs) /\
      registers_ (state_ s') = registers_ (state_ (simulator_ cs)) /\
      qpoints_ s' = Some q.
Proof.
  intros cs cs' q instr Hnone Hinit Hbr Htarget.
  rewrite (InitEntryPoints_without_table cs q Hnone) in Hinit.
  injection Hinit as <-. cbn [simulator_] in *.
  unfold VisitUnconditionalBranchToRegister, deref_qpoints.
  cbn [qpoints_]. rewrite DCHECK_true. cbn [bind].
  rewrite Hbr, Z.eqb_refl, Htarget, Z.eqb_refl.
  eexists. split; [reflexivity |].
  unfold RuntimeCallHelper_Execute, RuntimeCallVoid. cbn [ReadParameters memory_].
  destruct (HostCall (pTestSuspend q) [] (memory_ (simulator_ cs))) as [m' r].
  cbn. repeat split.
Qed.

End InterceptorExtras.

(** "br x17" to the 32-bit array allocator and "blr x16" to the suspend
    check: neither is diverted. *)
Lemma X1_witness :
  @VisitUnconditionalBranchToRegister demo_world demo_crossed_simulator 0x4010
    = @Simulator_VisitUnconditionalBranchToRegister demo_world demo_crossed_simulator 0x4010 /\
  @VisitUnconditionalBranchToRegister demo_world demo_crossed_simulator 0x4014
    = @Simulator_VisitUnconditionalBranchToRegister demo_world demo_crossed_simulator 0x4014.
Proof.
  split.
  - apply (proj1 (@X1_interception_is_per_branch_form demo_world demo_crossed_simulator
                    0x4010 demo_qpoints eq_refl)).
    + reflexivity.
    + intro E. discriminate E.
  - apply (proj2 (@X1_interception_is_per_branch_form demo_world demo_crossed_simulator
                    0x4014 demo_qpoints eq_refl)).
    + reflexivity.
    + intro E. discriminate E.
    + intros H. repeat (destruct H as [H | H]; [discriminate H |]). exact H.
Defined.

Lemma X2_witness :
  @VisitUnconditionalBranchToRegister demo_world demo_simulator_without_table 0x4000
    = Fatal DCheckFailed /\
  @VisitUnconditionalBranchToRegister demo_release_world demo_simulator_without_table 0x400C
    = @Simulator_VisitUnconditionalBranchToRegister demo_release_world
        demo_simulator_without_table 0x400C.
Proof.
  split.
  - apply (proj1 (@X2_visit_without_entry_points demo_world demo_simulator_without_table
                    0x4000 eq_refl)).
    reflexivity.
  - apply (proj2 (@X2_visit_without_entry_points demo_release_world
                    demo_simulator_without_table 0x400C eq_refl)).
    + reflexivity.
    + intro E. discriminate E.
    + intro E. discriminate E.
Defined.

Lemma X3_witness :
  @InitEntryPoints demo_world demo_code_simulator demo_qpoints = Fatal DCheckFailed.
Proof.
  apply (proj2 (@X3_entry_points_are_installed_once demo_world demo_code_simulator
                  demo_qpoints)).
  intro E. discriminate E.
Defined.

Lemma X4_witness :
  exists s',
    @VisitUnconditionalBranchToRegister demo_world demo_simulator 0x4000 = Ok s' /\
    calls_ s' = [mkRuntimeCall 0x5000 []] /\
    pc_ (state_ s') = 0x2222 /\
    registers_ (state_ s') = demo_registers /\
    qpoints_ s' = Some demo_qpoints.
Proof.
  apply (@X4_installed_table_drives_the_interceptor demo_world
           (mkCodeSimulatorArm64 demo_simulator_without_table 0)
           (mkCodeSimulatorArm64 demo_simulator 0) demo_qpoints 0x4000);
    reflexivity.
Defined.

(** ** The facade *)

Section FacadeExtras.
Context {world : Collaborators}.

(** X5: the lookup of compiled code, in full.  In a debug build it is fatal
    for a method that is abstract, native or not marked as simulatable, and
    outside simulator mode; in every other case it returns the code address
    the method records, null included: the test against null selects between
    two returns of the same value. *)
Theorem X5_GetQuickCodeFromArtMethod_outcome :
  forall method : ArtMethod,
    GetQuickCodeFromArtMethod method
    = if kIsDebugBuild
         && (IsAbstract method || IsNative method || negb SimulatorMode
             || negb (CanBeSimulated method))
      then Fatal DCheckFailed
      else Ok (OatMethodQuickCode method).
Proof.
  intros method. unfold GetQuickCodeFromArtMethod, DCHECK.
  assert (Hcode : (if negb (OatMethodQuickCode method =? 0)
                   then Ok (OatMethodQuickCode method) else Ok 0)
                  = Ok (OatMethodQuickCode method)).
  { destruct (Z.eqb_spec (OatMethodQuickCode method) 0) as [-> | _]; reflexivity. }
  cbv zeta. rewrite Hcode.
  destruct kIsDebugBuild; [| reflexivity].
  destruct (IsAbstract method); [reflexivity |].
  destruct (IsNative method); [reflexivity |].
  destruct SimulatorMode; [| reflexivity].
  destruct (CanBeSimulated method); reflexivity.
Qed.

(** X6: in a debug build [Invoke] never returns for a method that is
    abstract, native or not simulatable, nor outside simulator mode.  The
    arguments are packed first, so a shorty with parameters ends in
    UNREACHABLE before the lookup is reached; otherwise the lookup's DCHECK
    ends the call. *)
Theorem X6_invoke_of_unsuitable_method_is_fatal :
  forall (cs : CodeSimulatorArm64) (method : ArtMethod)
         (args args_size_in_bytes self result : Z) (shorty : CString) (isStatic : bool),
    kIsDebugBuild = true ->
    IsAbstract method = true \/ IsNative method = true \/
    SimulatorMode = false \/ CanBeSimulated method = false ->
    Invoke cs method args args_size_in_bytes self result shorty isStatic
    = Fatal (if has_parameter (c_chars shorty) then Unreachable else DCheckFailed).
Proof.
  intros cs method args size self result shorty isStatic Hdebug Hbad.
  unfold Invoke.
  destruct (has_parameter (c_chars shorty)) eqn:Hparams.
  - rewrite (proj1 (InitRegistersForInvokeStub_unreachable_iff cs method args size self
                      result shorty isStatic) Hparams).
    reflexivity.
  - destruct (proj2 (InitRegistersForInvokeStub_unreachable_iff cs method args size self
                       result shorty isStatic) Hparams) as [cs1 ->].
    cbn [bind]. unfold GetQuickCodeFromArtMethod, DCHECK. rewrite Hdebug.
    destruct Hbad as [-> | [H | [H | H]]]; [reflexivity | | |].
    + destruct (IsAbstract method); [reflexivity |]. rewrite H. reflexivity.
    + destruct (IsAbstract method); [reflexivity |].
      destruct (IsNative method); [reflexivity |]. rewrite H. reflexivity.
    + destruct (IsAbstract method); [reflexivity |].
      destruct (IsNative method); [reflexivity |].
      destruct SimulatorMode; [| reflexivity]. rewrite H. reflexivity.
Qed.

(** X7: no method with a parameter can be invoked.  Whatever the method, its
    compiled code, the argument buffer and the simulator state, [Invoke] on a
    shorty that declares a parameter ends in UNREACHABLE, during packing and
    before any simulated instruction runs. *)
Theorem X7_invoke_with_parameter_is_unreachable :
  forall (cs : CodeSimulatorArm64) (method : ArtMethod)
         (args args_size_in_bytes self result : Z) (shorty : CString) (isStatic : bool),
    has_parameter (c_chars shorty) = true ->
    Invoke cs method args args_size_in_bytes self result shorty isStatic
    = Fatal Unreachable.
Proof.
  intros cs method args size self result shorty isStatic Hparams.
  unfold Invoke.
  rewrite (proj1 (InitRegistersForInvokeStub_unreachable_iff cs method args size self
                    result shorty isStatic) Hparams).
  reflexivity.
Qed.

(** X8: the result is taken before the reset.  When packing, lookup and the
    simulated run succeed, [Invoke] returns; host memory is the memory the
    run left with the result slot filled in from the registers at the end of
    the run, and the table and the record of native calls are those the run
    left.  For an integer or reference return the slot holds the x0 of the
    end of the run, while x0 itself is back at its clean value; for a void
    return memory is exactly what the run left. *)
Theorem X8_invoke_extracts_result_before_reset :
  forall (cs cs1 : CodeSimulatorArm64) (s2 : CustomSimulator) (method : ArtMethod)
         (args args_size_in_bytes self result quick_code : Z) (shorty : CString)
         (isStatic : bool),
    InitRegistersForInvokeStub cs method args args_size_in_bytes self result shorty isStatic
      = Ok cs1 ->
    GetQuickCodeFromArtMethod method = Ok quick_code ->
    Simulator_RunFrom (simulator_ cs1) quick_code = Ok s2 ->
    exists cs' : CodeSimulatorArm64,
      Invoke cs method args args_size_in_bytes self result shorty isStatic = Ok cs' /\
      memory_ (simulator_ cs') = memory_ (GetResultFromShorty s2 result shorty) /\
      qpoints_ (simulator_ cs') = qpoints_ s2 /\
      calls_ (simulator_ cs') = calls_ s2 /\
      registers_ (state_ (simulator_ cs')) 0 = registers_ kCleanState 0 /\
      (first_char (c_chars shorty) <> "V"%char ->
       first_char (c_chars shorty) <> "D"%char ->
       first_char (c_chars shorty) <> "F"%char ->
       load64 (memory_ (simulator_ cs')) result = ReadXRegister s2 0) /\
      (first_char (c_chars shorty) = "V"%char ->
       memory_ (simulator_ cs') = memory_ s2).
Proof.
  intros cs cs1 s2 method args size self result quick_code shorty isStatic
         Hinit Hcode Hrun.
  eexists. split.
  { unfold Invoke, RunFrom. rewrite Hinit. cbn [bind]. rewrite Hcode. cbn [bind].
    rewrite Hrun. cbn [bind]. reflexivity. }
  cbn [simulator_]. unfold WriteSp. rewrite memory_WriteRegister.
  assert (Hq : forall s v, qpoints_ (WriteRegister s kSp v Reg31IsStackPointer) = qpoints_ s)
    by reflexivity.
  assert (Hc : forall s v, calls_ (WriteRegister s kSp v Reg31IsStackPointer) = calls_ s)
    by reflexivity.
  rewrite Hq, Hc. unfold ResetState, with_state. cbn [memory_ qpoints_ calls_].
  assert (Hframe : qpoints_ (GetResultFromShorty s2 result shorty) = qpoints_ s2 /\
                   calls_ (GetResultFromShorty s2 result shorty) = calls_ s2).
  { unfold GetResultFromShorty.
    destruct (Ascii.eqb _ "V"); [split; reflexivity |].
    destruct (Ascii.eqb _ "D"); [split; reflexivity |].
    destruct (Ascii.eqb _ "F"); split; reflexivity. }
  destruct Hframe as [-> ->].
  repeat split.
  - intros HV HD HF. rewrite GetResultFromShorty_default by assumption.
    unfold SetJ, with_memory. cbn [memory_].
    rewrite load64_store64. apply ReadXRegister_wrapped.
  - intros HV. unfold GetResultFromShorty. rewrite HV. reflexivity.
Qed.

(** X9: invocations do not accumulate stack.  After two invocations that
    return, one after the other on the same facade and with any methods and
    arguments, the simulated stack pointer is the one before the first, and
    that is also what [saved_sp_] holds. *)
Theorem X9_stack_pointer_survives_repeated_invokes :
  forall (cs cs' cs'' : CodeSimulatorArm64) (method method' : ArtMethod)
         (args size self result args' size' self' result' : Z)
         (shorty shorty' : CString) (isStatic isStatic' : bool),
    Invoke cs method args size self result shorty isStatic = Ok cs' ->
    Invoke cs' method' args' size' self' result' shorty' isStatic' = Ok cs'' ->
    get_sp (simulator_ cs'') = get_sp (simulator_ cs) /\
    saved_sp_ cs'' = get_sp (simulator_ cs).
Proof.
  intros cs cs' cs'' method method' args size self result args' size' self' result'
         shorty shorty' isStatic isStatic' H1 H2.
  assert (Hone : forall c c' m a sz sf r sh st,
             Invoke c m a sz sf r sh st = Ok c' ->
             get_sp (simulator_ c') = get_sp (simulator_ c) /\
             saved_sp_ c' = get_sp (simulator_ c)).
  { intros c c' m a sz sf r sh st H.
    destruct (Invoke_inversion _ _ _ _ _ _ _ _ _ H)
      as (c1 & code & s2 & Hinit & _ & _ & ->).
    apply InitRegistersForInvokeStub_saved_sp in Hinit.
    cbn [simulator_ saved_sp_]. rewrite get_sp_WriteSp, Hinit, get_sp_wrapped.
    split; reflexivity. }
  destruct (Hone _ _ _ _ _ _ _ _ _ H1) as [Hsp1 _].
  destruct (Hone _ _ _ _ _ _ _ _ _ H2) as [Hsp2 Hsaved2].
  rewrite Hsp2, Hsaved2, Hsp1. split; reflexivity.
Qed.

End FacadeExtras.

Lemma X6_witness :
  @Invoke demo_world demo_code_simulator demo_abstract_method 0x2000 0 demo_self
    demo_result (mkCString 0x3100 "V") true = Fatal DCheckFailed.
Proof.
  apply (@X6_invoke_of_unsuitable_method_is_fatal demo_world demo_code_simulator
           demo_abstract_method 0x2000 0 demo_self demo_result (mkCString 0x3100 "V") true
           eq_refl (or_introl eq_refl)).
Defined.

Lemma X7_witness :
  @Invoke demo_world demo_code_simulator demo_method 0x2000 4 demo_self demo_result
    (mkCString 0x3100 "VI") true = Fatal Unreachable.
Proof.
  apply (@X7_invoke_with_parameter_is_unreachable demo_world demo_code_simulator demo_method
           0x2000 4 demo_self demo_result (mkCString 0x3100 "VI") true eq_refl).
Defined.

Lemma X8_witness :
  exists cs' : CodeSimulatorArm64,
    @Invoke demo_world demo_code_simulator demo_method 0x2000 0 demo_self demo_result
      (mkCString 0x3100 "I") true = Ok cs' /\
    load64 (memory_ (simulator_ cs')) demo_result = 0x123456789 /\
    registers_ (state_ (simulator_ cs')) 0 = 0xbadbeef.
Proof.
  destruct (proj2 (@InitRegistersForInvokeStub_unreachable_iff demo_world
                     demo_code_simulator demo_method 0x2000 0 demo_self demo_result
                     (mkCString 0x3100 "I") true) eq_refl) as [cs1 Hinit].
  destruct (@X8_invoke_extracts_result_before_reset demo_world demo_code_simulator cs1
              (WriteXRegister (WritePc (simulator_ cs1) 0x4000) 0 0x123456789)
              demo_method 0x2000 0 demo_self demo_result 0x4000 (mkCString 0x3100 "I") true
              Hinit eq_refl eq_refl)
    as (cs' & Hinvoke & _ & _ & _ & Hx0 & Hslot & _).
  exists cs'. split; [exact Hinvoke |]. split; [| exact Hx0].
  apply Hslot; intro E; discriminate E.
Defined.

Lemma X9_witness :
  exists cs' cs'' : CodeSimulatorArm64,
    @Invoke demo_world demo_code_simulator demo_method 0x2000 0 demo_self demo_result
      (mkCString 0x3100 "I") true = Ok cs' /\
    @Invoke demo_world cs' demo_method_without_code 0x2000 0 demo_self demo_result
      (mkCString 0x3100 "V") false = Ok cs'' /\
    get_sp (simulator_ cs'') = 0x10000 /\ saved_sp_ cs'' = 0x10000.
Proof.
  destruct (@Invoke_returns demo_world demo_code_simulator demo_method 0x2000 0 demo_self
              demo_result 0x4000 (mkCString 0x3100 "I") true eq_refl eq_refl
              (fun s => ex_intro _ _ eq_refl)) as [cs' H1].
  destruct (@Invoke_returns demo_world cs' demo_method_without_code 0x2000 0 demo_self
              demo_result 0 (mkCString 0x3100 "V") false eq_refl eq_refl
              (fun s => ex_intro _ _ eq_refl)) as [cs'' H2].
  exists cs', cs''. split; [exact H1 |]. split; [exact H2 |].
  exact (@X9_stack_pointer_survives_repeated_invokes demo_world _ _ _ _ _ _ _ _ _ _ _ _ _
           _ _ _ _ H1 H2).
Defined.

(** ** Result extraction *)

Lemma store32_other (m : Memory) (a v x : Z) :
  x < a \/ a + 4 <= x -> store32 m a v x = m x.
Proof. intros H. unfold store32. apply store_le_other. lia. Qed.

(** X10: a float result fills half of the slot.  For return tag 'F' the
    first four bytes of the result slot receive s0 and every other byte of
    memory, the upper four bytes of the slot included, keeps what it held
    before. *)
Theorem X10_float_result_leaves_upper_half_of_slot :
  forall (s : CustomSimulator) (result : Z) (shorty : CString),
    first_char (c_chars shorty) = "F"%char ->
    load32 (memory_ (GetResultFromShorty s result shorty)) result = ReadSRegister s 0 /\
    forall x, x < result \/ result + 4 <= x ->
              memory_ (GetResultFromShorty s result shorty) x = memory_ s x.
Proof.
  intros s result shorty Htag. unfold GetResultFromShorty. rewrite Htag.
  cbn [Ascii.eqb Bool.eqb]. unfold SetF, with_memory. cbn [memory_]. split.
  - rewrite load32_store32. apply ReadSRegister_wrapped.
  - intros x Hx. apply store32_other. exact Hx.
Qed.

(** A slot that held the long -1 and receives the float 1.0f: the low word
    is the float, the byte after it is still 0xFF. *)
Lemma X10_witness :
  load32 (memory_ (GetResultFromShorty
                     (SetJ (WriteSRegister demo_simulator 0 0x3F800000) demo_result (-1))
                     demo_result (mkCString 0x3100 "F"))) demo_result
  = 0x3F800000 /\
  memory_ (GetResultFromShorty
             (SetJ (WriteSRegister demo_simulator 0 0x3F800000) demo_result (-1))
             demo_result (mkCString 0x3100 "F")) (demo_result + 4)
  = 0xFF.
Proof.
  pose proof (@X10_float_result_leaves_upper_half_of_slot
                (SetJ (WriteSRegister demo_simulator 0 0x3F800000) demo_result (-1))
                demo_result (mkCString 0x3100 "F") eq_refl) as [Hlow Hrest].
  split.
  - exact Hlow.
  - rewrite Hrest by (unfold demo_result; lia). reflexivity.
Defined.

(** X11: result extraction writes the slot and nothing else.  For every
    shorty, the empty one included, the registers, flags and program counter,
    the entry-point table and the record of native calls are unchanged, and
    so is every byte of memory outside the eight bytes of the result slot. *)
Theorem X11_result_extraction_touches_only_the_slot :
  forall (s : CustomSimulator) (result : Z) (shorty : CString),
    state_ (GetResultFromShorty s result shorty) = state_ s /\
    qpoints_ (GetResultFromShorty s result shorty) = qpoints_ s /\
    calls_ (GetResultFromShorty s result shorty) = calls_ s /\
    forall x, x < result \/ result + 8 <= x ->
              memory_ (GetResultFromShorty s result shorty) x = memory_ s x.
Proof.
  intros s result shorty. unfold GetResultFromShorty.
  destruct (Ascii.eqb _ "V"); [repeat split |].
  destruct (Ascii.eqb _ "D"); [| destruct (Ascii.eqb _ "F")];
    unfold SetD, SetF, SetJ, with_memory; cbn [state_ qpoints_ calls_ memory_];
    repeat split; intros x Hx;
    first [ apply store64_other; lia | apply store32_other; lia ].
Qed.

(** ** Argument packing: registers and frame *)

Lemma memcpy_inside (m : Memory) (dst src n x : Z) :
  dst <= x < dst + n -> memcpy m dst src n x = m (src + (x - dst)).
Proof.
  intros H. unfold memcpy.
  destruct (Z.leb_spec dst x); destruct (Z.ltb_spec x (dst + n)); cbn; try reflexivity; lia.
Qed.

Section PackingExtras.
Context {world : Collaborators}.

(** A packing that completes had no parameter to fill. *)
Lemma InitRegistersForInvokeStub_completed (cs cs1 : CodeSimulatorArm64) (method : ArtMethod)
  (args args_size_in_bytes self result : Z) (shorty : CString) (isStatic : bool) :
  InitRegistersForInvokeStub cs method args args_size_in_bytes self result shorty isStatic
    = Ok cs1 ->
  match skip_char (c_chars shorty) with
  | EmptyString => true
  | String c _ => Ascii.eqb c zero
  end = true.
Proof.
  intros H.
  destruct (has_parameter (c_chars shorty)) eqn:Hparams.
  - rewrite (proj1 (InitRegistersForInvokeStub_unreachable_iff cs method args
                      args_size_in_bytes self result shorty isStatic) Hparams) in H.
    discriminate H.
  - unfold has_parameter in Hparams.
    destruct (skip_char (c_chars shorty)) as [| c rest]; [reflexivity |].
    destruct (Ascii.eqb c zero); [reflexivity | discriminate Hparams].
Qed.

(** The register file a completed packing leaves, register by register, the
    latest write first. *)
Lemma InitRegistersForInvokeStub_registers (cs cs1 : CodeSimulatorArm64)
  (method : ArtMethod) (args args_size_in_bytes self result : Z) (shorty : CString)
  (isStatic : bool) :
  InitRegistersForInvokeStub cs method args args_size_in_bytes self result shorty isStatic
    = Ok cs1 ->
  let st := state_ (simulator_ cs) in
  let sp0 := get_sp (simulator_ cs) in
  (forall c,
     registers_ (state_ (simulator_ cs1)) c =
     if kUseReadBarrier && (c =? kMR) then wrap32 (if GetIsGcMarking self then 1 else 0)
     else if negb isStatic && (c =? 1) then wrap32 (load32 (memory_ (simulator_ cs1)) args)
     else if c =? kFp then wrap64 (sp0 - kXRegSizeInBytes * 15)
     else if c =? kSp
          then wrap64 (Z.land (wrap64 (sp0 - (kXRegSizeInBytes * 15 + kXRegSizeInBytes
                                               + args_size_in_bytes)))
                              0xFFFFFFFFFFFFFFF0)
     else if c =? 5 then wrap64 (c_ptr shorty)
     else if c =? 4 then wrap64 result
     else if c =? kSelf then wrap64 self
     else if c =? 0 then wrap64 (method_ptr method)
     else registers_ st c) /\
  vregisters_ (state_ (simulator_ cs1)) = vregisters_ st /\
  pc_ (state_ (simulator_ cs1)) = pc_ st /\
  nzcv_ (state_ (simulator_ cs1)) = nzcv_ st /\
  fpcr_ (state_ (simulator_ cs1)) = fpcr_ st /\
  qpoints_ (simulator_ cs1) = qpoints_ (simulator_ cs) /\
  calls_ (simulator_ cs1) = calls_ (simulator_ cs).
Proof.
  intros H st sp0. subst st sp0.
  pose proof (InitRegistersForInvokeStub_completed _ _ _ _ _ _ _ _ _ H) as Hnone.
  unfold InitRegistersForInvokeStub in H.
  destruct isStatic; cbv beta iota zeta delta [negb] in H;
    rewrite (FillRegisters_no_parameter _ _ _ _ _ Hnone) in H;
    cbn [bind] in H; injection H as <-; cbn [simulator_];
    match goal with
    | |- context [with_memory _ ?M] => set (m1 := M); clearbody m1
    end;
    rewrite !get_sp_WriteXRegister;
    destruct kUseReadBarrier; cbn [andb negb];
    (split; [intros c; reflexivity | repeat split]).
Qed.

(** Below the saved record, memory after a completed packing is the memory
    before it with the null slot stored and the argument bytes copied. *)
Lemma InitRegistersForInvokeStub_memory_below_record (cs cs1 : CodeSimulatorArm64)
  (method : ArtMethod) (args args_size_in_bytes self result : Z) (shorty : CString)
  (isStatic : bool) :
  InitRegistersForInvokeStub cs method args args_size_in_bytes self result shorty isStatic
    = Ok cs1 ->
  let sp0 := get_sp (simulator_ cs) in
  let new_sp := Z.land (wrap64 (sp0 - (kXRegSizeInBytes * 15 + kXRegSizeInBytes
                                       + args_size_in_bytes)))
                       0xFFFFFFFFFFFFFFF0 in
  forall x, x < sp0 + 24 ->
    memory_ (simulator_ cs1) x
    = memcpy (store64 (memory_ (simulator_ cs)) new_sp 0) (new_sp + 8) args
             (args_size_in_bytes * 4) x.
Proof.
  intros H sp0 new_sp x Hx.
  unfold InitRegistersForInvokeStub in H.
  destruct isStatic; cbv beta iota zeta delta [negb] in H;
    match type of H with
    | bind ?fill _ = _ => destruct fill as [s' | why] eqn:Hfill
    end; cbn [bind] in H; try discriminate H;
    injection H as <-; apply FillRegisters_frame in Hfill; destruct Hfill as [Hm _];
    cbn [simulator_]; rewrite memory_marking, Hm; clear Hm;
    rewrite ?memory_WriteWRegister;
    rewrite memory_WriteXRegister;
    cbn [with_memory memory_ save_callee_saved];
    rewrite !memory_WriteSp, !memory_WriteXRegister;
    rewrite !get_sp_WriteXRegister; fold sp0; fold new_sp;
    rewrite !store64_other by lia; reflexivity.
Qed.

Lemma new_sp_in_range (sp0 frame_save_size : Z) :
  let new_sp := Z.land (wrap64 (sp0 - frame_save_size)) 0xFFFFFFFFFFFFFFF0 in
  wrap64 new_sp = new_sp /\ new_sp mod 16 = 0.
Proof.
  intros new_sp. subst new_sp.
  pose proof (wrap64_range (sp0 - frame_save_size)) as Hw.
  rewrite align16_spec by exact Hw.
  pose proof (Z.mod_pos_bound (wrap64 (sp0 - frame_save_size)) 16 ltac:(lia)) as Hm.
  pose proof (Z.div_mod (wrap64 (sp0 - frame_save_size)) 16 ltac:(lia)) as Hd.
  split.
  - unfold wrap64 at 1. apply Z.mod_small. lia.
  - replace (wrap64 (sp0 - frame_save_size) - wrap64 (sp0 - frame_save_size) mod 16)
      with (wrap64 (sp0 - frame_save_size) / 16 * 16) by lia.
    apply Z.mod_mul. lia.
Qed.

(** The stack pointer a completed packing sets. *)
Lemma InitRegistersForInvokeStub_new_sp (cs cs1 : CodeSimulatorArm64) (method : ArtMethod)
  (args args_size_in_bytes self result : Z) (shorty : CString) (isStatic : bool) :
  InitRegistersForInvokeStub cs method args args_size_in_bytes self result shorty isStatic
    = Ok cs1 ->
  get_sp (simulator_ cs1)
  = Z.land (wrap64 (get_sp (simulator_ cs) - (128 + args_size_in_bytes)))
           0xFFFFFFFFFFFFFFF0.
Proof.
  intros H.
  destruct (InitRegistersForInvokeStub_registers _ _ _ _ _ _ _ _ _ H) as [Hregs _].
  unfold get_sp at 1. unfold ReadRegister. rewrite Hregs.
  unfold kMR, kFp, kSp, kXRegSizeInBytes.
  cbn [Z.eqb Pos.eqb]. rewrite !andb_false_r.
  replace (8 * 15 + 8 + args_size_in_bytes) with (128 + args_size_in_bytes) by lia.
  rewrite !(proj1 (new_sp_in_range _ _)). reflexivity.
Qed.

Lemma InitRegistersForInvokeStub_new_sp_bounds (cs cs1 : CodeSimulatorArm64)
  (method : ArtMethod) (args args_size_in_bytes self result : Z) (shorty : CString)
  (isStatic : bool) :
  InitRegistersForInvokeStub cs method args args_size_in_bytes self result shorty isStatic
    = Ok cs1 ->
  0 <= args_size_in_bytes ->
  128 + args_size_in_bytes <= get_sp (simulator_ cs) ->
  get_sp (simulator_ cs) - (128 + args_size_in_bytes) - 15
    <= get_sp (simulator_ cs1)
    <= get_sp (simulator_ cs) - (128 + args_size_in_bytes).
Proof.
  intros H Hsize Hfit.
  rewrite (InitRegistersForInvokeStub_new_sp _ _ _ _ _ _ _ _ _ H).
  pose proof (wrap64_range (registers_ (state_ (simulator_ cs)) kSp)) as Hrange.
  fold (get_sp (simulator_ cs)) in Hrange.
  destruct (new_sp_aligned_below (get_sp (simulator_ cs)) (128 + args_size_in_bytes))
    as (_ & _ & Hb);
    [lia | unfold get_sp, ReadRegister in *; lia | exact Hb].
Qed.

(** X12: the registers a completed packing sets.  x0 holds the method
    pointer, x4 the result pointer, x5 the shorty pointer, x19 the thread, and
    the frame pointer is the previous stack pointer less the fifteen saved
    slots.  In a read-barrier build x20 is the thread's marking flag as 0 or
    1; otherwise x20 is not written. *)
Theorem X12_packing_sets_the_stub_registers :
  forall (cs cs1 : CodeSimulatorArm64) (method : ArtMethod)
         (args args_size_in_bytes self result : Z) (shorty : CString) (isStatic : bool),
    InitRegistersForInvokeStub cs method args args_size_in_bytes self result shorty isStatic
      = Ok cs1 ->
    ReadXRegister (simulator_ cs1) 0 = wrap64 (method_ptr method) /\
    ReadXRegister (simulator_ cs1) 4 = wrap64 result /\
    ReadXRegister (simulator_ cs1) 5 = wrap64 (c_ptr shorty) /\
    ReadXRegister (simulator_ cs1) kSelf = wrap64 self /\
    get_fp (simulator_ cs1) = wrap64 (get_sp (simulator_ cs) - 120) /\
    ReadXRegister (simulator_ cs1) kMR
    = if kUseReadBarrier then (if GetIsGcMarking self then 1 else 0)
      else ReadXRegister (simulator_ cs) kMR.
Proof.
  intros cs cs1 method args size self result shorty isStatic H.
  destruct (InitRegistersForInvokeStub_registers _ _ _ _ _ _ _ _ _ H) as [Hregs _].
  unfold get_fp, ReadXRegister, ReadRegister, kSelf, kMR, kFp.
  cbn [Z.eqb Pos.eqb]. rewrite !Hregs.
  unfold kSelf, kMR, kFp, kSp, kXRegSizeInBytes.
  destruct kUseReadBarrier, isStatic; cbn [andb negb Z.eqb Pos.eqb];
    rewrite !wrap64_idem; repeat split;
    destruct (GetIsGcMarking self); reflexivity.
Qed.

(** X13: the registers a completed packing leaves alone.  Every general
    register other than x0, x1, x4, x5, x19, x20, x29 and the stack pointer
    keeps its value, x1 too for a static call; no vector register, no flag
    and not the program counter is written; the entry-point table and the
    record of native calls are unchanged. *)
Theorem X13_packing_leaves_other_registers :
  forall (cs cs1 : CodeSimulatorArm64) (method : ArtMethod)
         (args args_size_in_bytes self result : Z) (shorty : CString) (isStatic : bool),
    InitRegistersForInvokeStub cs method args args_size_in_bytes self result shorty isStatic
      = Ok cs1 ->
    (forall c, ~ In c [0; 1; 4; 5; kSelf; kMR; kFp; kSp] ->
               registers_ (state_ (simulator_ cs1)) c
               = registers_ (state_ (simulator_ cs)) c) /\
    (isStatic = true ->
     registers_ (state_ (simulator_ cs1)) 1 = registers_ (state_ (simulator_ cs)) 1) /\
    vregisters_ (state_ (simulator_ cs1)) = vregisters_ (state_ (simulator_ cs)) /\
    pc_ (state_ (simulator_ cs1)) = pc_ (state_ (simulator_ cs)) /\
    nzcv_ (state_ (simulator_ cs1)) = nzcv_ (state_ (simulator_ cs)) /\
    fpcr_ (state_ (simulator_ cs1)) = fpcr_ (state_ (simulator_ cs)) /\
    qpoints_ (simulator_ cs1) = qpoints_ (simulator_ cs) /\
    calls_ (simulator_ cs1) = calls_ (simulator_ cs).
Proof.
  intros cs cs1 method args size self result shorty isStatic H.
  destruct (InitRegistersForInvokeStub_registers _ _ _ _ _ _ _ _ _ H)
    as (Hregs & Hv & Hpc & Hnzcv & Hfpcr & Hq & Hcalls).
  repeat split; try assumption.
  - intros c Hc. rewrite Hregs. cbn [In] in Hc.
    repeat match goal with
           | |- context [c =? ?k] =>
               destruct (Z.eqb_spec c k) as [E | _]; [exfalso; apply Hc; rewrite E; tauto |]
           end.
    rewrite !andb_false_r. reflexivity.
  - intros ->. rewrite Hregs. unfold kMR, kFp, kSp, kSelf.
    cbn [negb andb Z.eqb Pos.eqb]. rewrite andb_false_r. reflexivity.
Qed.

(** X14: the stack pointer a completed packing sets is a multiple of 16,
    and when the frame of 128 bytes plus the argument size fits under the
    previous stack pointer it lies below it by that much and at most 15 bytes
    more. *)
Theorem X14_packed_stack_pointer_is_aligned_below :
  forall (cs cs1 : CodeSimulatorArm64) (method : ArtMethod)
         (args args_size_in_bytes self result : Z) (shorty : CString) (isStatic : bool),
    InitRegistersForInvokeStub cs method args args_size_in_bytes self result shorty isStatic
      = Ok cs1 ->
    get_sp (simulator_ cs1) mod 16 = 0 /\
    (0 <= args_size_in_bytes ->
     128 + args_size_in_bytes <= get_sp (simulator_ cs) ->
     get_sp (simulator_ cs) - (128 + args_size_in_bytes) - 15
       <= get_sp (simulator_ cs1)
       <= get_sp (simulator_ cs) - (128 + args_size_in_bytes)).
Proof.
  intros cs cs1 method args size self result shorty isStatic H. split.
  - rewrite (InitRegistersForInvokeStub_new_sp _ _ _ _ _ _ _ _ _ H).
    apply new_sp_in_range.
  - apply (InitRegistersForInvokeStub_new_sp_bounds _ _ _ _ _ _ _ _ _ H).
Qed.

End PackingExtras.

Section PackingMemoryExtras.
Context {world : Collaborators}.

(** X15: what a completed packing writes below the saved record when the
    frame fits under the previous stack pointer.  The eight bytes at the new
    stack pointer hold a null method pointer; nothing below the new stack
    pointer is written; and between the end of the argument copy and the
    saved record, which starts 24 bytes above the previous stack pointer,
    nothing is written either. *)
Theorem X15_packing_writes_null_slot_and_nothing_around :
  forall (cs cs1 : CodeSimulatorArm64) (method : ArtMethod)
         (args args_size_in_bytes self result : Z) (shorty : CString) (isStatic : bool),
    InitRegistersForInvokeStub cs method args args_size_in_bytes self result shorty isStatic
      = Ok cs1 ->
    0 <= args_size_in_bytes ->
    128 + args_size_in_bytes <= get_sp (simulator_ cs) ->
    load64 (memory_ (simulator_ cs1)) (get_sp (simulator_ cs1)) = 0 /\
    (forall x, x < get_sp (simulator_ cs1) ->
               memory_ (simulator_ cs1) x = memory_ (simulator_ cs) x) /\
    (forall x, get_sp (simulator_ cs1) + 8 + 4 * args_size_in_bytes <= x
               < get_sp (simulator_ cs) + 24 ->
               memory_ (simulator_ cs1) x = memory_ (simulator_ cs) x).
Proof.
  intros cs cs1 method args size self result shorty isStatic H Hsize Hfit.
  pose proof (InitRegistersForInvokeStub_new_sp _ _ _ _ _ _ _ _ _ H) as Hsp.
  pose proof (InitRegistersForInvokeStub_new_sp_bounds _ _ _ _ _ _ _ _ _ H Hsize Hfit)
    as Hb.
  pose proof (InitRegistersForInvokeStub_memory_below_record _ _ _ _ _ _ _ _ _ H) as Hmem.
  cbv zeta in Hmem.
  replace (kXRegSizeInBytes * 15 + kXRegSizeInBytes + size) with (128 + size) in Hmem
    by (unfold kXRegSizeInBytes; lia).
  rewrite <- Hsp in Hmem.
  repeat split.
  - unfold load64. rewrite (load_le_ext 8 _ (store64 (memory_ (simulator_ cs))
                                               (get_sp (simulator_ cs1)) 0)).
    + apply load64_store64.
    + intros x Hx. change (Z.of_nat 8) with 8 in Hx.
      rewrite Hmem by lia. apply memcpy_other. lia.
  - intros x Hx. rewrite Hmem by lia.
    rewrite memcpy_other by lia. apply store64_other. lia.
  - intros x Hx. rewrite Hmem by lia.
    rewrite memcpy_other by lia. apply store64_other. lia.
Qed.

(** X16: the argument copy.  A completed packing copies four bytes for
    every byte counted in [args_size_in_bytes], from the argument buffer to
    the addresses right above the null slot: each such byte that lies below
    the saved record equals the byte of the buffer at the same offset, for a
    buffer that does not overlap the null slot. *)
Theorem X16_packing_copies_four_times_the_argument_size :
  forall (cs cs1 : CodeSimulatorArm64) (method : ArtMethod)
         (args args_size_in_bytes self result : Z) (shorty : CString) (isStatic : bool)
         (k : Z),
    InitRegistersForInvokeStub cs method args args_size_in_bytes self result shorty isStatic
      = Ok cs1 ->
    0 <= k < 4 * args_size_in_bytes ->
    get_sp (simulator_ cs1) + 8 + k < get_sp (simulator_ cs) + 24 ->
    args + k < get_sp (simulator_ cs1) \/ get_sp (simulator_ cs1) + 8 <= args + k ->
    memory_ (simulator_ cs1) (get_sp (simulator_ cs1) + 8 + k)
    = memory_ (simulator_ cs) (args + k).
Proof.
  intros cs cs1 method args size self result shorty isStatic k H Hk Hbelow Hdisjoint.
  pose proof (InitRegistersForInvokeStub_new_sp _ _ _ _ _ _ _ _ _ H) as Hsp.
  pose proof (InitRegistersForInvokeStub_memory_below_record _ _ _ _ _ _ _ _ _ H) as Hmem.
  cbv zeta in Hmem.
  replace (kXRegSizeInBytes * 15 + kXRegSizeInBytes + size) with (128 + size) in Hmem
    by (unfold kXRegSizeInBytes; lia).
  rewrite <- Hsp in Hmem.
  rewrite Hmem by lia. rewrite memcpy_inside by lia.
  replace (args + (get_sp (simulator_ cs1) + 8 + k - (get_sp (simulator_ cs1) + 8)))
    with (args + k) by lia.
  apply store64_other. lia.
Qed.

End PackingMemoryExtras.

(** An instance call of signature "V" whose receiver word is 42, with the
    stack pointer at 0x10000. *)
Lemma X12_witness :
  exists cs1 : CodeSimulatorArm64,
    @InitRegistersForInvokeStub demo_world demo_code_simulator demo_method 0x2000 4
      demo_self demo_result (mkCString 0x3100 "V") false = Ok cs1 /\
    ReadXRegister (simulator_ cs1) 0 = 0x8000 /\
    ReadXRegister (simulator_ cs1) 4 = 0x3000 /\
    ReadXRegister (simulator_ cs1) 5 = 0x3100 /\
    ReadXRegister (simulator_ cs1) kSelf = 0x7000 /\
    get_fp (simulator_ cs1) = 0xFF88 /\
    ReadXRegister (simulator_ cs1) kMR = 0.
Proof.
  destruct (proj2 (@InitRegistersForInvokeStub_unreachable_iff demo_world
                     demo_code_simulator demo_method 0x2000 4 demo_self demo_result
                     (mkCString 0x3100 "V") false) eq_refl) as [cs1 Hinit].
  exists cs1. split; [exact Hinit |].
  exact (@X12_packing_sets_the_stub_registers demo_world _ _ _ _ _ _ _ _ _ Hinit).
Defined.

Lemma X13_witness :
  exists cs1 : CodeSimulatorArm64,
    @InitRegistersForInvokeStub demo_world demo_code_simulator demo_method 0x2000 4
      demo_self demo_result (mkCString 0x3100 "V") false = Ok cs1 /\
    registers_ (state_ (simulator_ cs1)) 16 = 0x5000 /\
    registers_ (state_ (simulator_ cs1)) 30 = 0x2222.
Proof.
  destruct (proj2 (@InitRegistersForInvokeStub_unreachable_iff demo_world
                     demo_code_simulator demo_method 0x2000 4 demo_self demo_result
                     (mkCString 0x3100 "V") false) eq_refl) as [cs1 Hinit].
  exists cs1. split; [exact Hinit |].
  destruct (@X13_packing_leaves_other_registers demo_world _ _ _ _ _ _ _ _ _ Hinit)
    as [Hother _].
  split; rewrite Hother; try reflexivity;
    intros Hin; repeat (destruct Hin as [Hin | Hin]; [discriminate Hin |]); exact Hin.
Defined.

Lemma X14_witness :
  exists cs1 : CodeSimulatorArm64,
    @InitRegistersForInvokeStub demo_world demo_code_simulator demo_method 0x2000 4
      demo_self demo_result (mkCString 0x3100 "V") false = Ok cs1 /\
    get_sp (simulator_ cs1) mod 16 = 0 /\
    0x10000 - 132 - 15 <= get_sp (simulator_ cs1) <= 0x10000 - 132.
Proof.
  destruct (proj2 (@InitRegistersForInvokeStub_unreachable_iff demo_world
                     demo_code_simulator demo_method 0x2000 4 demo_self demo_result
                     (mkCString 0x3100 "V") false) eq_refl) as [cs1 Hinit].
  exists cs1. split; [exact Hinit |].
  destruct (@X14_packed_stack_pointer_is_aligned_below demo_world _ _ _ _ _ _ _ _ _ Hinit)
    as [Haligned Hbounds].
  split; [exact Haligned |].
  apply Hbounds; intro Hcmp; discriminate Hcmp.
Defined.

Lemma X15_witness :
  exists cs1 : CodeSimulatorArm64,
    @InitRegistersForInvokeStub demo_world demo_code_simulator demo_method 0x2000 4
      demo_self demo_result (mkCString 0x3100 "V") false = Ok cs1 /\
    load64 (memory_ (simulator_ cs1)) (get_sp (simulator_ cs1)) = 0.
Proof.
  destruct (proj2 (@InitRegistersForInvokeStub_unreachable_iff demo_world
                     demo_code_simulator demo_method 0x2000 4 demo_self demo_result
                     (mkCString 0x3100 "V") false) eq_refl) as [cs1 Hinit].
  exists cs1. split; [exact Hinit |].
  apply (@X15_packing_writes_null_slot_and_nothing_around demo_world _ _ _ _ _ _ _ _ _
           Hinit); intro Hcmp; discriminate Hcmp.
Defined.

(** The receiver word 42 at 0x2000 arrives right above the null slot. *)
Lemma X16_witness :
  exists cs1 : CodeSimulatorArm64,
    @InitRegistersForInvokeStub demo_world demo_code_simulator demo_method 0x2000 4
      demo_self demo_result (mkCString 0x3100 "V") false = Ok cs1 /\
    memory_ (simulator_ cs1) (get_sp (simulator_ cs1) + 8 + 0) = 42.
Proof.
  destruct (proj2 (@InitRegistersForInvokeStub_unreachable_iff demo_world
                     demo_code_simulator demo_method 0x2000 4 demo_self demo_result
                     (mkCString 0x3100 "V") false) eq_refl) as [cs1 Hinit].
  exists cs1. split; [exact Hinit |].
  pose proof (@InitRegistersForInvokeStub_new_sp demo_world _ _ _ _ _ _ _ _ _ Hinit)
    as Hsp.
  change (get_sp (simulator_ cs1) = 0xFF70) in Hsp.
  apply (@X16_packing_copies_four_times_the_argument_size demo_world _ _ _ _ _ _ _ _ _ 0
           Hinit).
  - lia.
  - rewrite Hsp. reflexivity.
  - left. rewrite Hsp. reflexivity.
Defined.

(** ** The policy as built *)

Lemma string_append_assoc (a b c : string) :
  ((a ++ b) ++ c = a ++ (b ++ c))%string.
Proof. induction a as [| x a IH]; cbn; [reflexivity | now rewrite IH]. Qed.

Lemma Substring_trans (a b c : string) :
  Substring a b -> Substring b c -> Substring a c.
Proof.
  intros (p' & q' & ->) (p & q & ->).
  exists (p ++ p')%string, (q' ++ q)%string.
  now rewrite !string_append_assoc.
Qed.

Lemma avoid_loop_false_spec (name : string) (entries : list string) :
  avoid_loop name entries = false <-> exists s, In s entries /\ Substring s name.
Proof.
  induction entries as [| e rest IH]; cbn.
  - split; [discriminate | intros [s [[] _]]].
  - destruct (is_npos (find name e)) eqn:Hf; cbn.
    + rewrite IH. apply find_none_spec in Hf.
      split; intros [s [Hin Hs]]; exists s.
      * auto.
      * destruct Hin as [-> | Hin]; [contradiction | auto].
    + split; [intros _ | reflexivity].
      exists e. split; [now left | now apply find_spec].
Qed.

(** X17: a refused name stays refused when text is added around it.  If a
    method passes the policy without carrying the "$simulate$" marker, then
    so does every method whose name occurs inside its name; only the marker
    can make a longer name eligible where a part of it is not. *)
Theorem X17_eligibility_passes_to_contained_names :
  forall method method' : ArtMethod,
    Substring (PrettyMethod method) (PrettyMethod method') ->
    ~ Substring "$simulate$" (PrettyMethod method') ->
    CanSimulate method' = true ->
    CanSimulate method = true.
Proof.
  intros method method' Hsub Hmarker Hok.
  unfold CanSimulate in *.
  apply CanSimulateWith_spec in Hok. apply CanSimulateWith_spec.
  destruct Hok as [Hm | [_ Hclean]]; [contradiction |].
  right. unfold kEnableSimulateMethodAllowList in *. split.
  - intros Hm. apply Hmarker. exact (Substring_trans _ _ _ Hm Hsub).
  - intros s Hin Hs. apply (Hclean s Hin). exact (Substring_trans _ _ _ Hs Hsub).
Qed.

Lemma X17_witness :
  CanSimulate (mkArtMethod 0 false false true 0 "Foo.bar") = true.
Proof.
  apply (X17_eligibility_passes_to_contained_names
           (mkArtMethod 0 false false true 0 "Foo.bar")
           (mkArtMethod 0 false false true 0 "int Foo.bar(int)")).
  - exists "int "%string, "(int)"%string. reflexivity.
  - intros H. apply find_spec in H. discriminate H.
  - reflexivity.
Defined.

(** X18: the policy as built.  With allow-list mode switched off in the
    file, a method is refused exactly when its name lacks the "$simulate$"
    marker and contains one of "main", "<clinit>", "java.", "sun.", "dalvik.",
    "android." or "libcore." anywhere, parameter types included; the contents
    of the allow-list have no effect on the answer. *)
Theorem X18_policy_as_built_is_the_deny_list :
  forall method : ArtMethod,
    (CanSimulate method = false <->
     ~ Substring "$simulate$" (PrettyMethod method) /\
     exists s, In s ["main"; "<clinit>"; "java."; "sun."; "dalvik."; "android.";
                     "libcore."]%string
               /\ Substring s (PrettyMethod method)) /\
    forall allow_list : list string,
      CanSimulateWith kEnableSimulateMethodAllowList allow_list
        avoid_simulation_method_list (PrettyMethod method)
      = CanSimulate method.
Proof.
  intros method. split; [| reflexivity].
  unfold CanSimulate, CanSimulateWith, kEnableSimulateMethodAllowList.
  destruct (is_npos (find (PrettyMethod method) "$simulate$")) eqn:Hm; cbn [negb].
  - apply find_none_spec in Hm.
    rewrite avoid_loop_false_spec. unfold avoid_simulation_method_list. tauto.
  - apply find_spec in Hm. split; [discriminate | tauto].
Qed.
